(** * hr-manager: attendance geofencing, attendance marking, leave review

    A shallow embedding of the parts of the HR manager front end that carry
    logic of their own:

    - [Office]      src/config/office.ts (Haversine distance, office range)
    - [OfficeComputed]  the office check on the distance as the engine
                    computed it, within a tolerance of the formula
    - [JS]          the fragment of JavaScript strings the handlers rely on
                    ([String.prototype.trim], [===], truthiness)
    - [Supabase]    the requests the screens send to the table API
    - [UI]          messages, toasts, and the events a handler produces
    - [AuthContext] the signed-in employee, as the screens read it
    - [Attendance]  the MarkAttendance component of
                    src/components/admin/AdminAttendance.tsx
    - [Leave]       the approve / reject mutations of
                    src/components/admin/AdminLeaveRequests.tsx
    - [TaskStatus]  the task status unions declared in src/lib/supabase.ts
                    and in the two versions of the admin task screen
    - [JSLib], [Screen]  more of the standard library ([includes], [split],
                    [join]) and the effects of the screens with cached
                    queries
    - [MarkAttendance]  the rest of the MarkAttendance component: the query
                    for today's row, the QR scan handler, the manual button
    - [AdminAttendance]  the admin attendance screen: filter, counters,
                    avatar initials
    - [LeaveScreen] the handlers, the status dialog and the counters of the
                    leave screen
    - [AdminTasks], [EmployeeTasks]  task creation and the task lists

    A handler is a function from the component state (and what the clock and
    the backend answer) to the new state and the list of events it produced,
    in order: toasts, requests to the backend, console errors.

    JavaScript numbers are modelled as real numbers: [Office] is the
    formula the code evaluates, not the rounding of IEEE doubles, and [NaN]
    and the infinities are outside the model. Where a result depends on the
    last digits of the distance (the rounded [distance] field, the verdict
    next to the radius), the theorems speak of the computed double itself,
    through [OfficeComputed]. *)

From Stdlib Require Import Reals Lra Lia ZArith List String Ascii.
From stdpp Require Import gmap strings list.

(* ===================================================================== *)
(** * src/config/office.ts                                                *)
(* ===================================================================== *)

Module Office.
Local Open Scope R_scope.

(** ** The pieces of [Math] the file uses *)

(** [Math.atan2 y x]: the angle of the point [(x, y)], in (-PI, PI]. *)
Definition Math_atan2 (y x : R) : R :=
  if Rlt_dec 0 x then atan (y / x)
  else if Rlt_dec x 0 then
         (if Rle_dec 0 y then atan (y / x) + PI else atan (y / x) - PI)
  else if Rlt_dec 0 y then PI / 2
  else if Rlt_dec y 0 then - (PI / 2)
  else 0.

(** [Math.round x]: the nearest integer, halves going up, [floor (x + 0.5)]. *)
Definition Math_round (x : R) : R := IZR (Zfloor (x + 0.5)).

(** [a <= b] as the boolean JavaScript computes. *)
Definition Rleb (a b : R) : bool := if Rle_dec a b then true else false.

(** ** OFFICE_CONFIG *)

Record Coordinates := { lat : R; lng : R }.

Record OfficeConfig := {
  coordinates : Coordinates;
  allowedRadius : R;
  enforceLocationCheck : bool
}.

Definition OFFICE_CONFIG : OfficeConfig := {|
  coordinates := {| lat := 11.603722; lng := 76.209250 |};
  allowedRadius := 100;
  enforceLocationCheck := true
|}.

(** ** calculateDistance *)

Definition calculateDistance (lat1 lng1 lat2 lng2 : R) : R :=
  let R := 6371e3 in
  let φ1 := (lat1 * PI) / 180 in
  let φ2 := (lat2 * PI) / 180 in
  let Δφ := ((lat2 - lat1) * PI) / 180 in
  let Δλ := ((lng2 - lng1) * PI) / 180 in
  let a :=
    sin (Δφ / 2) * sin (Δφ / 2) +
    cos φ1 * cos φ2 * sin (Δλ / 2) * sin (Δλ / 2) in
  let c := 2 * Math_atan2 (sqrt a) (sqrt (1 - a)) in
  R * c.

(** The local [a] of [calculateDistance], with the [let]s expanded. *)
Definition a_of (lat1 lng1 lat2 lng2 : R) : R :=
  sin ((lat2 - lat1) * PI / 180 / 2) * sin ((lat2 - lat1) * PI / 180 / 2) +
  cos (lat1 * PI / 180) * cos (lat2 * PI / 180) *
  sin ((lng2 - lng1) * PI / 180 / 2) * sin ((lng2 - lng1) * PI / 180 / 2).

(** ** isWithinOfficeRange *)

Record RangeCheck := { isWithinRange : bool; distance : R }.

Definition isWithinOfficeRange (employeeLat employeeLng : R) : RangeCheck :=
  let distance :=
    calculateDistance employeeLat employeeLng
      (lat (coordinates OFFICE_CONFIG)) (lng (coordinates OFFICE_CONFIG)) in
  {| isWithinRange := Rleb distance (allowedRadius OFFICE_CONFIG);
     distance := Math_round distance |}.

(** ** The Haversine formula, as the specification words it

    The great-circle distance on a sphere of radius [r] between two points
    given in degrees: [2 r asin (sqrt h)], where
    [h = hav (φ2 - φ1) + cos φ1 cos φ2 hav (λ2 - λ1)] and
    [hav θ = sin² (θ / 2)]. *)

Definition radians (deg : R) : R := deg * PI / 180.

Definition hav (θ : R) : R := (sin (θ / 2))².

Definition haversine_h (lat1 lng1 lat2 lng2 : R) : R :=
  hav (radians lat2 - radians lat1) +
  cos (radians lat1) * cos (radians lat2) * hav (radians lng2 - radians lng1).

Definition haversine_distance (r lat1 lng1 lat2 lng2 : R) : R :=
  2 * r * asin (sqrt (haversine_h lat1 lng1 lat2 lng2)).

Definition mean_earth_radius : R := 6371000.

End Office.

(* ===================================================================== *)
(** * The office check on the distance as the engine computes it          *)
(* ===================================================================== *)

(** [Office.calculateDistance] is the formula of the source over the real
    numbers. The program evaluates that formula in IEEE doubles, with the
    engine's [Math.sin], [Math.cos], [Math.sqrt] and [Math.atan2], and holds
    the coordinates of the office as the doubles nearest to the decimal
    literals; none of that is in the source. The double it obtains is a real
    number close to the value of the formula, in general not equal to it.
    This module takes that double as given: what the source does with it,
    the comparison with the radius and [Math.round], is exact on a double. *)
Module OfficeComputed.
Import Office.
Local Open Scope R_scope.

(** [computed] is within [eps] of [exact]. *)
Definition within (eps computed exact : R) : Prop :=
  Rabs (computed - exact) <= eps.

(** The object [isWithinOfficeRange] returns once [calculateDistance] has
    returned [distance]. *)
Definition rangeCheck_of (distance : R) : RangeCheck :=
  {| isWithinRange := Rleb distance (allowedRadius OFFICE_CONFIG);
     distance := Math_round distance |}.

End OfficeComputed.

(* ===================================================================== *)
(** * JavaScript strings                                                  *)
(* ===================================================================== *)

Module JS.

(** A string is a sequence of UTF-16 code units. *)
Definition JSString : Type := list N.

(** An ASCII literal of the source. *)
Definition lit (s : string) : JSString :=
  List.map N_of_ascii (list_ascii_of_string s).

(** The code units [String.prototype.trim] strips: WhiteSpace (TAB, VT, FF,
    ZWNBSP and the space separators of Unicode) and LineTerminator (LF, CR,
    LS, PS). *)
Definition isWhiteSpace (c : N) : bool :=
  ((c =? 0x0009) || (c =? 0x000B) || (c =? 0x000C) || (c =? 0xFEFF) ||
   (c =? 0x0020) || (c =? 0x00A0) || (c =? 0x1680) ||
   ((0x2000 <=? c) && (c <=? 0x200A)) ||
   (c =? 0x202F) || (c =? 0x205F) || (c =? 0x3000) ||
   (c =? 0x000A) || (c =? 0x000D) || (c =? 0x2028) || (c =? 0x2029))%N.

Fixpoint trimStart (s : JSString) : JSString :=
  match s with
  | c :: s' => if isWhiteSpace c then trimStart s' else s
  | [] => []
  end.

Definition trimEnd (s : JSString) : JSString := rev (trimStart (rev s)).

Definition trim (s : JSString) : JSString := trimEnd (trimStart s).

(** [!s]: only the empty string is falsy. *)
Definition not_str (s : JSString) : bool :=
  match s with [] => true | _ :: _ => false end.

(** [a === b] and [a !== b] on strings. *)
Definition strict_eq (a b : JSString) : bool := bool_decide (a = b).
Definition strict_ne (a b : JSString) : bool := negb (strict_eq a b).

(** A string that is empty or made of white space only. *)
Definition blank (s : JSString) : Prop := Forall (fun c => isWhiteSpace c = true) s.

End JS.

(* ===================================================================== *)
(** * What the screens exchange with their environment                    *)
(* ===================================================================== *)

(** The table API of the hosted backend, as far as the screens call it. *)
Module Supabase.
Import JS.

(** A column value of a request body. *)
Inductive Value :=
| VString (s : JSString)
| VNumber (x : R)
| VNull.

(** [from(table).update(values).eq(column, value)] and
    [from(table).insert(values).select().single()]. A property whose value is
    [undefined] is not part of the request body and is left out of
    [values]. *)
Inductive Call :=
| Update (table : JSString) (values : list (JSString * Value))
         (column : JSString) (value : JSString)
| Insert (table : JSString) (values : list (JSString * Value)).

(** The [error] member of a response. *)
Record PostgrestError := { code : JSString }.

End Supabase.

(** Text shown to the user, toasts, and the events a handler produces. *)
Module UI.

(** A template literal: literal chunks and interpolated numbers. *)
Inductive Chunk :=
| Str (s : string)
| Num (x : R).

Definition Text : Type := list Chunk.

Record Toast := {
  title : string;
  description : Text;
  variant : option string;
  duration : option Z
}.

Inductive Event :=
| toast (t : Toast)
| supabase (c : Supabase.Call)
| console_error (label : string).

(** Some request went to the backend. *)
Definition wrote (events : list Event) : Prop :=
  exists c, In (supabase c) events.

End UI.

(** The authentication context the screens obtain from [useAuth]. *)
Module AuthContext.
Import JS.

(** Modelled from the spec: the employee record of the authentication
    context (contexts/AuthContext is not among the sources). Of the
    signed-in employee the screens read the identifier and the location flag
    (in-office, or remote / field); the flag may be missing. *)
Record Employee := {
  employee_id : JSString;
  location : option JSString
}.

End AuthContext.

(* ===================================================================== *)
(** * src/components/admin/AdminAttendance.tsx, component MarkAttendance  *)
(* ===================================================================== *)

Module Attendance.
Import JS UI.
Local Open Scope string_scope.

(** A row of the [attendance] table (src/lib/supabase.ts). *)
Record AttendanceRow := {
  id : JSString;
  employee_id : JSString;
  date : JSString;
  check_in_time : option JSString;
  check_out_time : option JSString;
  location_lat : option R;
  location_lng : option R;
  status : JSString;
  method : JSString;
  created_at : JSString
}.

Inductive MessageType := success | error.

Record Message := { type : MessageType; text : Text }.

(** The [useState] cells of the component. *)
Record State := {
  employeeId : JSString;
  manualEmployeeId : JSString;
  location : option Office.Coordinates;
  locationCheck : option Office.RangeCheck;
  loading : bool;
  message : option Message;
  showScanner : bool;
  showManualEntry : bool;
  qrScanned : bool;
  todayAttendance : option AttendanceRow;
  checkingAttendance : bool
}.

(** The initial values given to [useState]. *)
Definition initial : State :=
  {| employeeId := []; manualEmployeeId := []; location := None;
     locationCheck := None; loading := false; message := None;
     showScanner := false; showManualEntry := false; qrScanned := false;
     todayAttendance := None; checkingAttendance := true |}.

Definition setEmployeeId (v : JSString) (s : State) : State :=
  {| employeeId := v; manualEmployeeId := manualEmployeeId s;
     location := location s; locationCheck := locationCheck s;
     loading := loading s; message := message s; showScanner := showScanner s;
     showManualEntry := showManualEntry s; qrScanned := qrScanned s;
     todayAttendance := todayAttendance s;
     checkingAttendance := checkingAttendance s |}.

Definition setManualEmployeeId (v : JSString) (s : State) : State :=
  {| employeeId := employeeId s; manualEmployeeId := v;
     location := location s; locationCheck := locationCheck s;
     loading := loading s; message := message s; showScanner := showScanner s;
     showManualEntry := showManualEntry s; qrScanned := qrScanned s;
     todayAttendance := todayAttendance s;
     checkingAttendance := checkingAttendance s |}.

Definition setCheckingAttendance (v : bool) (s : State) : State :=
  {| employeeId := employeeId s; manualEmployeeId := manualEmployeeId s;
     location := location s; locationCheck := locationCheck s;
     loading := loading s; message := message s; showScanner := showScanner s;
     showManualEntry := showManualEntry s; qrScanned := qrScanned s;
     todayAttendance := todayAttendance s;
     checkingAttendance := v |}.

Definition setLocation (v : option Office.Coordinates) (s : State) : State :=
  {| employeeId := employeeId s; manualEmployeeId := manualEmployeeId s;
     location := v; locationCheck := locationCheck s; loading := loading s;
     message := message s; showScanner := showScanner s;
     showManualEntry := showManualEntry s; qrScanned := qrScanned s;
     todayAttendance := todayAttendance s;
     checkingAttendance := checkingAttendance s |}.

Definition setLocationCheck (v : option Office.RangeCheck) (s : State) : State :=
  {| employeeId := employeeId s; manualEmployeeId := manualEmployeeId s;
     location := location s; locationCheck := v; loading := loading s;
     message := message s; showScanner := showScanner s;
     showManualEntry := showManualEntry s; qrScanned := qrScanned s;
     todayAttendance := todayAttendance s;
     checkingAttendance := checkingAttendance s |}.

Definition setLoading (v : bool) (s : State) : State :=
  {| employeeId := employeeId s; manualEmployeeId := manualEmployeeId s;
     location := location s; locationCheck := locationCheck s; loading := v;
     message := message s; showScanner := showScanner s;
     showManualEntry := showManualEntry s; qrScanned := qrScanned s;
     todayAttendance := todayAttendance s;
     checkingAttendance := checkingAttendance s |}.

Definition setMessage (v : option Message) (s : State) : State :=
  {| employeeId := employeeId s; manualEmployeeId := manualEmployeeId s;
     location := location s; locationCheck := locationCheck s;
     loading := loading s; message := v; showScanner := showScanner s;
     showManualEntry := showManualEntry s; qrScanned := qrScanned s;
     todayAttendance := todayAttendance s;
     checkingAttendance := checkingAttendance s |}.

Definition setQrScanned (v : bool) (s : State) : State :=
  {| employeeId := employeeId s; manualEmployeeId := manualEmployeeId s;
     location := location s; locationCheck := locationCheck s;
     loading := loading s; message := message s; showScanner := showScanner s;
     showManualEntry := showManualEntry s; qrScanned := v;
     todayAttendance := todayAttendance s;
     checkingAttendance := checkingAttendance s |}.

Definition setTodayAttendance (v : option AttendanceRow) (s : State) : State :=
  {| employeeId := employeeId s; manualEmployeeId := manualEmployeeId s;
     location := location s; locationCheck := locationCheck s;
     loading := loading s; message := message s; showScanner := showScanner s;
     showManualEntry := showManualEntry s; qrScanned := qrScanned s;
     todayAttendance := v;
     checkingAttendance := checkingAttendance s |}.

(** [{ ...todayAttendance, check_out_time: v }] *)
Definition with_check_out_time (v : JSString) (r : AttendanceRow) : AttendanceRow :=
  {| id := id r; employee_id := employee_id r; date := date r;
     check_in_time := check_in_time r; check_out_time := Some v;
     location_lat := location_lat r; location_lng := location_lng r;
     status := status r; method := method r; created_at := created_at r |}.

(** [employee?.location === 'in-office'] *)
Definition in_office (employee : option AuthContext.Employee) : bool :=
  match employee with
  | Some e =>
      match AuthContext.location e with
      | Some l => strict_eq l (lit "in-office")
      | None => false
      end
  | None => false
  end.

(** [x || 0] on a number. *)
Definition or_zero (x : R) : R := if Req_dec_T x 0 then 0%R else x.

(** [!v] on a nullable string. *)
Definition not_nullable (v : option JSString) : bool :=
  match v with Some s => not_str s | None => true end.

(** ** The success callback of [getCurrentPosition] *)

Definition onPosition (employee : option AuthContext.Employee)
    (coords : Office.Coordinates) (st : State) : State :=
  let userLocation :=
    {| Office.lat := Office.lat coords; Office.lng := Office.lng coords |} in
  let st := setLocation (Some userLocation) st in
  if in_office employee && Office.enforceLocationCheck Office.OFFICE_CONFIG then
    let rangeCheck :=
      Office.isWithinOfficeRange (Office.lat userLocation) (Office.lng userLocation) in
    setLocationCheck (Some rangeCheck) st
  else
    setLocationCheck
      (Some {| Office.isWithinRange := true; Office.distance := 0 |}) st.

(** ** handleMarkAttendance *)

Inductive Method := qr | manual.

Definition Method_str (m : Method) : JSString :=
  match m with qr => lit "qr" | manual => lit "manual" end.

(** The device clock at the time of the call: [localDate] is the local
    calendar date, [localDateTime] is [now.toISOString()]. *)
Record Clock := { localDate : JSString; localDateTime : JSString }.

(** What the backend answers to the request the handler sends. *)
Record Server := {
  updateError : option Supabase.PostgrestError;
  data : option AttendanceRow;
  insertError : option Supabase.PostgrestError
}.

(** The [catch] and [finally] blocks. *)
Definition failed (st : State) (sent : list Event) : State * list Event :=
  (setLoading false
     (setMessage
        (Some {| type := error;
                 text := [Str "Failed to mark attendance. Please try again."] |})
        st),
   (sent ++
    [console_error "Error marking attendance:";
     toast {| title := "Error";
              description := [Str "Failed to mark attendance"];
              variant := Some "destructive"; duration := None |}])%list).

(** The body from [setLoading(true)] on. *)
Definition submit (clock : Clock) (server : Server) (method : Method)
    (idToUse : JSString) (location : Office.Coordinates) (st : State)
  : State * list Event :=
  let st := setMessage None (setLoading true st) in
  match todayAttendance st with
  | Some today =>
      if not_nullable (check_out_time today) then
        let call :=
          supabase
            (Supabase.Update (lit "attendance")
               [(lit "check_out_time", Supabase.VString (localDateTime clock));
                (lit "check_out_location_lat", Supabase.VNumber (Office.lat location));
                (lit "check_out_location_lng", Supabase.VNumber (Office.lng location))]
               (lit "id") (id today)) in
        match updateError server with
        | Some _ => failed st [call]
        | None =>
            (setLoading false
               (setQrScanned false
                  (setTodayAttendance
                     (Some (with_check_out_time (localDateTime clock) today))
                     (setMessage
                        (Some {| type := success;
                                 text := [Str "✓ Check-out marked successfully!"] |})
                        st))),
             [call;
              toast {| title := "✓ Success";
                       description := [Str "Check-out time recorded!"];
                       variant := None; duration := None |}])
        end
      else
        (setLoading false
           (setMessage
              (Some {| type := error;
                       text := [Str "You have already checked out for today"] |})
              st),
         [toast {| title := "Already Checked Out";
                   description :=
                     [Str "You have already completed attendance for today"];
                   variant := Some "destructive"; duration := None |}])
  | None =>
      let call :=
        supabase
          (Supabase.Insert (lit "attendance")
             [(lit "employee_id", Supabase.VString idToUse);
              (lit "date", Supabase.VString (localDate clock));
              (lit "check_in_time", Supabase.VString (localDateTime clock));
              (lit "location_lat", Supabase.VNumber (Office.lat location));
              (lit "location_lng", Supabase.VNumber (Office.lng location));
              (lit "status", Supabase.VString (lit "present"));
              (lit "method", Supabase.VString (Method_str method))]) in
      match insertError server with
      | Some _ => failed st [call]
      | None =>
          (setLoading false
             (setQrScanned false
                (setTodayAttendance (data server)
                   (setMessage
                      (Some {| type := success;
                               text := [Str "✓ Check-in marked successfully!"] |})
                      st))),
           [call;
            toast {| title := "✓ Success";
                     description := [Str "Attendance check-in successful!"];
                     variant := None; duration := Some 5000%Z |}])
      end
  end.

(** The refusal of an in-office employee who is out of range. *)
Definition too_far (distance : R) (st : State) : State * list Event :=
  (setMessage
     (Some {| type := error;
              text := [Str "You must be within ";
                       Num (Office.allowedRadius Office.OFFICE_CONFIG);
                       Str "m of the office to mark attendance. You are ";
                       Num distance; Str "m away."] |})
     st,
   [toast {| title := "Location Check Failed";
             description := [Str "You are too far from the office (";
                             Num distance;
                             Str "m away). Please move closer to mark attendance."];
             variant := Some "destructive"; duration := Some 6000%Z |}]).

(** [method === "qr" ? employeeId : manualEmployeeId] *)
Definition idToUse (method : Method) (st : State) : JSString :=
  match method with qr => employeeId st | manual => manualEmployeeId st end.

(** An event is a refusal on distance grounds when it is the toast of
    [too_far]. *)
Definition distance_refusal (ev : Event) : Prop :=
  exists t, ev = toast t /\ title t = "Location Check Failed".

Definition handleMarkAttendance (employee : option AuthContext.Employee)
    (clock : Clock) (server : Server) (method : Method) (st : State)
  : State * list Event :=
  let idToUse := idToUse method st in
  if not_str (trim idToUse) then
    (setMessage (Some {| type := error; text := [Str "Employee ID not found"] |}) st,
     [toast {| title := "Error";
               description := [Str "Employee ID is required"];
               variant := Some "destructive"; duration := None |}])
  else if match employee with
          | Some e => strict_ne (trim idToUse) (AuthContext.employee_id e)
          | None => false
          end then
    (setMessage
       (Some {| type := error;
                text := [Str "You can only mark attendance for your own Employee ID"] |})
       st,
     [toast {| title := "Access Denied";
               description := [Str "You cannot mark attendance for other employees"];
               variant := Some "destructive"; duration := Some 5000%Z |}])
  else
    match location st with
    | None =>
        (setMessage
           (Some {| type := error;
                    text := [Str "Location not available. Please enable location services."] |})
           st,
         [])
    | Some location =>
        if in_office employee && Office.enforceLocationCheck Office.OFFICE_CONFIG then
          match locationCheck st with
          | None => too_far 0 st
          | Some check =>
              if negb (Office.isWithinRange check)
              then too_far (or_zero (Office.distance check)) st
              else submit clock server method idToUse location st
          end
        else submit clock server method idToUse location st
    end.

End Attendance.

(* ===================================================================== *)
(** * src/components/admin/AdminLeaveRequests.tsx                         *)
(* ===================================================================== *)

Module Leave.
Import JS UI.
Local Open Scope string_scope.

(** interface LeaveRequest *)
Record LeaveRequest := {
  id : JSString;
  employee_id : JSString;
  leave_type : JSString;
  subject : JSString;
  description : JSString;
  from_date : JSString;
  to_date : JSString;
  status : JSString;
  has_document : bool;
  approved_by : option JSString;
  approved_at : option JSString;
  rejection_reason : option JSString;
  created_at : JSString
}.

(** What an [async] mutation function ends with: it returns, or it throws
    an [Error] of its own or the error of the response. *)
Inductive Thrown :=
| Error (message : string)
| ResponseError (e : Supabase.PostgrestError).

Inductive Completion :=
| returned
| thrown (t : Thrown).

(** [comment || null] *)
Definition or_null (s : JSString) : Supabase.Value :=
  if not_str s then Supabase.VNull else Supabase.VString s.

(** [approved_by: employee?.employee_id], left out of the body when nobody
    is signed in. *)
Definition approved_by_of (employee : option AuthContext.Employee)
  : list (JSString * Supabase.Value) :=
  match employee with
  | Some e => [(lit "approved_by", Supabase.VString (AuthContext.employee_id e))]
  | None => []
  end.

(** [approveMutation.mutationFn]; [now] is [new Date().toISOString()] and
    [error] the [error] member of the backend's response. *)
Definition approveMutation (employee : option AuthContext.Employee)
    (now : JSString) (error : option Supabase.PostgrestError)
    (requestId comment : JSString) : list Event * Completion :=
  let call :=
    supabase
      (Supabase.Update (lit "leave_requests")
         ([(lit "status", Supabase.VString (lit "approved"))]
          ++ approved_by_of employee
          ++ [(lit "approved_at", Supabase.VString now);
              (lit "rejection_reason", or_null comment)])%list
         (lit "id") requestId) in
  match error with
  | Some e => ([call], thrown (ResponseError e))
  | None => ([call], returned)
  end.

(** [rejectMutation.mutationFn] *)
Definition rejectMutation (employee : option AuthContext.Employee)
    (now : JSString) (error : option Supabase.PostgrestError)
    (requestId reason : JSString) : list Event * Completion :=
  if not_str (trim reason) then
    ([], thrown (Error "Rejection reason is required"))
  else
    let call :=
      supabase
        (Supabase.Update (lit "leave_requests")
           ([(lit "status", Supabase.VString (lit "rejected"))]
            ++ approved_by_of employee
            ++ [(lit "approved_at", Supabase.VString now);
                (lit "rejection_reason", Supabase.VString reason)])%list
           (lit "id") requestId) in
    match error with
    | Some e => ([call], thrown (ResponseError e))
    | None => ([call], returned)
    end.

(** ** The table behind the calls *)

(** A column value read back as a nullable string. *)
Definition nullable (v : Supabase.Value) : option JSString :=
  match v with Supabase.VString s => Some s | _ => None end.

(** One column of a request body written into a row. *)
Definition set_column (r : LeaveRequest) (cv : JSString * Supabase.Value)
  : LeaveRequest :=
  let '(column, v) := cv in
  if strict_eq column (lit "status") then
    match v with
    | Supabase.VString s =>
        {| id := id r; employee_id := employee_id r; leave_type := leave_type r;
           subject := subject r; description := description r;
           from_date := from_date r; to_date := to_date r; status := s;
           has_document := has_document r; approved_by := approved_by r;
           approved_at := approved_at r; rejection_reason := rejection_reason r;
           created_at := created_at r |}
    | _ => r
    end
  else if strict_eq column (lit "approved_by") then
    {| id := id r; employee_id := employee_id r; leave_type := leave_type r;
       subject := subject r; description := description r;
       from_date := from_date r; to_date := to_date r; status := status r;
       has_document := has_document r; approved_by := nullable v;
       approved_at := approved_at r; rejection_reason := rejection_reason r;
       created_at := created_at r |}
  else if strict_eq column (lit "approved_at") then
    {| id := id r; employee_id := employee_id r; leave_type := leave_type r;
       subject := subject r; description := description r;
       from_date := from_date r; to_date := to_date r; status := status r;
       has_document := has_document r; approved_by := approved_by r;
       approved_at := nullable v; rejection_reason := rejection_reason r;
       created_at := created_at r |}
  else if strict_eq column (lit "rejection_reason") then
    {| id := id r; employee_id := employee_id r; leave_type := leave_type r;
       subject := subject r; description := description r;
       from_date := from_date r; to_date := to_date r; status := status r;
       has_document := has_document r; approved_by := approved_by r;
       approved_at := approved_at r; rejection_reason := nullable v;
       created_at := created_at r |}
  else r.

(** Modelled from the spec: the [leave_requests] table of the hosted
    backend, which is not part of the sources, and what an update by row
    filter does to it (the table API offers read, insert, update and delete
    by row filters). Rows are keyed by their primary key [id]; an update
    filtered on [id] overwrites the named columns of the row with that key
    and touches nothing else. *)
Definition execute (table : gmap JSString LeaveRequest) (e : Event)
  : gmap JSString LeaveRequest :=
  match e with
  | supabase (Supabase.Update t values column key) =>
      if strict_eq t (lit "leave_requests") && strict_eq column (lit "id")
      then alter (fun r => fold_left set_column values r) key table
      else table
  | _ => table
  end.

Definition execute_all (events : list Event) (table : gmap JSString LeaveRequest)
  : gmap JSString LeaveRequest :=
  fold_left execute events table.

(** The row after a decision: status, approver, time of decision, comment. *)
Definition decided (s : JSString) (by_ at_ : JSString) (why : option JSString)
    (r : LeaveRequest) : LeaveRequest :=
  {| id := id r; employee_id := employee_id r; leave_type := leave_type r;
     subject := subject r; description := description r;
     from_date := from_date r; to_date := to_date r; status := s;
     has_document := has_document r; approved_by := Some by_;
     approved_at := Some at_; rejection_reason := why;
     created_at := created_at r |}.

End Leave.

(* ===================================================================== *)
(** * The declared task status unions                                     *)
(* ===================================================================== *)

Module TaskStatus.
Import JS.
Local Open Scope string_scope.

(** src/lib/supabase.ts, [Database.public.Tables.tasks.Row.status]. *)
Definition supabase_tasks_status : list JSString :=
  [lit "pending"; lit "in_progress"; lit "completed"; lit "overdue"].

(** The earlier version of the admin task screen (one of the unnamed source
    files), [interface Task], [status]. *)
Definition AdminTasks_earlier_Task_status : list JSString :=
  [lit "pending"; lit "in_progress"; lit "completed"; lit "overdue"].

(** src/components/admin/AdminTasks.tsx, [interface Task], [status]. *)
Definition AdminTasks_Task_status : list JSString :=
  [lit "not_started"; lit "in_progress"; lit "completed"; lit "shelved";
   lit "accepted"; lit "rejected"].

(** The set of values of a union of string literals. *)
Definition values (union : list JSString) : gset JSString := list_to_set union.

End TaskStatus.

(* ===================================================================== *)
(** * More of the standard library, and what the other screens produce    *)
(* ===================================================================== *)

Module JSLib.
Import JS.

(** [s.startsWith(sub)] and [s.includes(sub)] *)
Fixpoint startsWith (s sub : JSString) : bool :=
  match sub, s with
  | [], _ => true
  | c :: sub', d :: s' => (c =? d)%N && startsWith s' sub'
  | _ :: _, [] => false
  end.

Fixpoint includes (s sub : JSString) : bool :=
  startsWith s sub
  || match s with
     | [] => false
     | _ :: s' => includes s' sub
     end.

(** [s.split(sep)] for a separator of one code unit: the pieces between
    the separators, empty pieces included. *)
Fixpoint split (sep : N) (s : JSString) : list JSString :=
  match s with
  | [] => [[]]
  | c :: s' =>
      if (c =? sep)%N then [] :: split sep s'
      else match split sep s' with
           | piece :: pieces => (c :: piece) :: pieces
           | [] => [[c]]
           end
  end.

(** [pieces.join(sep)] on an array of strings. *)
Fixpoint join (sep : JSString) (pieces : list JSString) : JSString :=
  match pieces with
  | [] => []
  | [piece] => piece
  | piece :: rest => piece ++ sep ++ join sep rest
  end.

(** [v || ''] on an optional string. *)
Definition or_empty (v : option JSString) : JSString :=
  match v with Some s => s | None => [] end.

End JSLib.

Module Screen.
Import JS.

(** The text of a toast that may interpolate strings. *)
Inductive Piece :=
| Literal (s : string)
| Interpolated (s : JSString).

Record Toast := {
  title : string;
  description : list Piece;
  variant : option string;
  duration : option Z
}.

(** What a screen with cached queries produces: the events of [UI], toasts
    with interpolated text, and invalidations of a cached query. *)
Inductive Effect :=
| ui (e : UI.Event)
| toast (t : Toast)
| invalidateQueries (queryKey : string).

(** The requests among the effects, in order. *)
Fixpoint requests (effects : list Effect) : list Supabase.Call :=
  match effects with
  | ui (UI.supabase c) :: rest => c :: requests rest
  | _ :: rest => requests rest
  | [] => []
  end.

(** The events of [UI] among the effects, in order. *)
Fixpoint events (effects : list Effect) : list UI.Event :=
  match effects with
  | ui e :: rest => e :: events rest
  | _ :: rest => events rest
  | [] => []
  end.

End Screen.

(* ===================================================================== *)
(** * More of the MarkAttendance component                                *)
(* ===================================================================== *)

Module MarkAttendance.
Import JS UI Attendance.
Local Open Scope string_scope.

Definition setShowScanner (v : bool) (s : State) : State :=
  {| employeeId := employeeId s; manualEmployeeId := manualEmployeeId s;
     location := location s; locationCheck := locationCheck s;
     loading := loading s; message := message s; showScanner := v;
     showManualEntry := showManualEntry s; qrScanned := qrScanned s;
     todayAttendance := todayAttendance s;
     checkingAttendance := checkingAttendance s |}.

(** The requests among the events of a handler, in order. *)
Fixpoint requests (events : list Event) : list Supabase.Call :=
  match events with
  | supabase c :: rest => c :: requests rest
  | _ :: rest => requests rest
  | [] => []
  end.

(** ** checkTodayAttendance

    [data] and [error] are the members of the answer to the query for
    today's row of the employee; [threw] tells that the query threw
    instead of answering. *)
Definition checkTodayAttendance (data : option AttendanceRow)
    (error : option Supabase.PostgrestError) (threw : bool) (st : State)
  : State * list Event :=
  if not_str (employeeId st) then (st, [])
  else
    let st := setCheckingAttendance true st in
    if threw then (setCheckingAttendance false st, [console_error "Error:"])
    else
      (setCheckingAttendance false (setTodayAttendance data st),
       match error with
       | Some e =>
           if strict_ne (Supabase.code e) (lit "PGRST116")
           then [console_error "Error checking attendance:"]
           else []
       | None => []
       end).

(** ** handleQRScan *)

(** What a scan leaves behind: the new state, the toast, and whether
    [handleMarkAttendance("qr")] was scheduled (after 500 ms). *)
Record ScanResult := {
  scan_state : State;
  scan_toast : Screen.Toast;
  scan_scheduled : bool
}.

Definition handleQRScan (employee : option AuthContext.Employee)
    (scannedData : JSString) (st : State) : ScanResult :=
  if match employee with
     | Some e => strict_ne (trim scannedData) (AuthContext.employee_id e)
     | None => false
     end then
    {| scan_state := setShowScanner false st;
       scan_toast :=
         {| Screen.title := "Invalid QR Code";
            Screen.description :=
              [Screen.Literal "This QR code doesn't match your Employee ID. Please scan your own QR code."];
            Screen.variant := Some "destructive";
            Screen.duration := Some 5000%Z |};
       scan_scheduled := false |}
  else
    {| scan_state :=
         setShowScanner false (setQrScanned true (setEmployeeId scannedData st));
       scan_toast :=
         {| Screen.title := "QR Code Scanned Successfully";
            Screen.description :=
              [Screen.Literal "Employee ID: "; Screen.Interpolated scannedData;
               Screen.Literal " - Ready to mark attendance"];
            Screen.variant := None; Screen.duration := Some 3000%Z |};
       scan_scheduled := true |}.

(** ** The success callback of [getCurrentPosition], with the distance
    the engine computed

    As [Attendance.onPosition], with [computed] standing for the double
    that [calculateDistance] returned inside [isWithinOfficeRange]. *)
Definition onPositionComputed (employee : option AuthContext.Employee)
    (coords : Office.Coordinates) (computed : R) (st : State) : State :=
  let userLocation :=
    {| Office.lat := Office.lat coords; Office.lng := Office.lng coords |} in
  let st := setLocation (Some userLocation) st in
  if in_office employee && Office.enforceLocationCheck Office.OFFICE_CONFIG then
    let rangeCheck := OfficeComputed.rangeCheck_of computed in
    setLocationCheck (Some rangeCheck) st
  else
    setLocationCheck
      (Some {| Office.isWithinRange := true; Office.distance := 0 |}) st.

(** ** The [disabled] attribute of the manual "Check In / Check Out" button *)

Definition manualButtonDisabled (employee : option AuthContext.Employee)
    (st : State) : bool :=
  loading st
  || not_str (trim (manualEmployeeId st))
  || match location st with None => true | Some _ => false end
  || checkingAttendance st
  || match todayAttendance st with
     | Some today => negb (not_nullable (check_out_time today))
     | None => false
     end
  || (in_office employee
      && Office.enforceLocationCheck Office.OFFICE_CONFIG
      && match locationCheck st with
         | Some check => negb (Office.isWithinRange check)
         | None => false
         end).

End MarkAttendance.

(* ===================================================================== *)
(** * src/components/admin/AdminAttendance.tsx, component AdminAttendance *)
(* ===================================================================== *)

Module AdminAttendance.
Import JS JSLib.
Local Open Scope string_scope.

(** interface AttendanceRecord *)
Record AttendanceRecord := {
  id : JSString;
  employee_id : JSString;
  employee_name : option JSString;
  date : JSString;
  check_in_time : option JSString;
  check_out_time : option JSString;
  status : JSString;
  location_lat : option R;
  location_lng : option R;
  check_out_location_lat : option R;
  check_out_location_lng : option R;
  method : option JSString
}.

(** The values of [status] the interface declares. *)
Definition status_union : list JSString :=
  [lit "present"; lit "absent"; lit "late"; lit "on_leave"].

Section Filtered.
(** [String.prototype.toLowerCase], whatever it maps each string to. *)
Variable toLowerCase : JSString -> JSString.

Definition filteredRecords (searchQuery statusFilter : JSString)
    (attendanceRecords : list AttendanceRecord) : list AttendanceRecord :=
  List.filter
    (fun record =>
       let matchesSearch :=
         includes (toLowerCase (or_empty (employee_name record)))
                  (toLowerCase searchQuery)
         || includes (toLowerCase (employee_id record)) (toLowerCase searchQuery) in
       let matchesStatus :=
         strict_eq statusFilter (lit "all")
         || strict_eq (status record) statusFilter in
       matchesSearch && matchesStatus)
    attendanceRecords.

End Filtered.

Record AttendanceStats := {
  present : nat;
  absent : nat;
  late : nat;
  onLeave : nat
}.

Definition attendanceStats (attendanceRecords : list AttendanceRecord)
  : AttendanceStats :=
  {| present :=
       length (List.filter (fun r => strict_eq (status r) (lit "present"))
                 attendanceRecords);
     absent :=
       length (List.filter (fun r => strict_eq (status r) (lit "absent"))
                 attendanceRecords);
     late :=
       length (List.filter (fun r => strict_eq (status r) (lit "late"))
                 attendanceRecords);
     onLeave :=
       length (List.filter (fun r => strict_eq (status r) (lit "on_leave"))
                 attendanceRecords) |}.

(** The avatar fallback:
    [(record.employee_name || '').split(' ').map(n => n[0]).join('')];
    [n[0]] of an empty piece is [undefined], which [join] renders as
    nothing. *)
Definition first_unit (n : JSString) : JSString :=
  match n with c :: _ => [c] | [] => [] end.

Definition initials (employee_name : option JSString) : JSString :=
  join [] (List.map first_unit (split 32 (or_empty employee_name))).

End AdminAttendance.

(* ===================================================================== *)
(** * More of src/components/admin/AdminLeaveRequests.tsx                 *)
(* ===================================================================== *)

Module LeaveScreen.
Import JS UI Leave.
Local Open Scope string_scope.

(** The [useState] cells of the screen. *)
Record State := {
  searchTerm : JSString;
  statusFilter : JSString;
  selectedRequest : option LeaveRequest;
  reviewComment : JSString
}.

Definition setReviewComment (v : JSString) (s : State) : State :=
  {| searchTerm := searchTerm s; statusFilter := statusFilter s;
     selectedRequest := selectedRequest s; reviewComment := v |}.

Definition setSelectedRequest (v : option LeaveRequest) (s : State) : State :=
  {| searchTerm := searchTerm s; statusFilter := statusFilter s;
     selectedRequest := v; reviewComment := reviewComment s |}.

(** [error.message || fallback] for what a mutation threw;
    [response_message] is the [message] member of the response error. *)
Definition message_or (t : Thrown) (response_message : JSString)
    (fallback : string) : list Screen.Piece :=
  match t with
  | Error m => if String.eqb m "" then [Screen.Literal fallback]
               else [Screen.Literal m]
  | ResponseError _ =>
      if not_str response_message then [Screen.Literal fallback]
      else [Screen.Interpolated response_message]
  end.

(** [onSuccess] of the three mutations, up to the toast. *)
Definition succeeded (t : Screen.Toast) (st : State)
  : State * list Screen.Effect :=
  (setSelectedRequest None (setReviewComment [] st),
   [Screen.invalidateQueries "admin-leave-requests"; Screen.toast t]).

(** [approveMutation.mutate({ requestId, comment })] *)
Definition approve_mutate (employee : option AuthContext.Employee)
    (now : JSString) (error : option Supabase.PostgrestError)
    (requestId comment : JSString) (st : State) : State * list Screen.Effect :=
  let '(sent, completion) := approveMutation employee now error requestId comment in
  match completion with
  | returned =>
      let '(st, effects) :=
        succeeded
          {| Screen.title := "Leave Approved";
             Screen.description :=
               [Screen.Literal "The leave request has been approved successfully."];
             Screen.variant := None; Screen.duration := None |} st in
      (st, List.map Screen.ui sent ++ effects)
  | thrown _ =>
      (st,
       List.map Screen.ui sent ++
       [Screen.ui (console_error "Error approving leave:");
        Screen.toast
          {| Screen.title := "Error";
             Screen.description := [Screen.Literal "Failed to approve leave request"];
             Screen.variant := Some "destructive"; Screen.duration := None |}])
  end%list.

(** [rejectMutation.mutate({ requestId, reason })] *)
Definition reject_mutate (employee : option AuthContext.Employee)
    (now : JSString) (error : option Supabase.PostgrestError)
    (response_message : JSString)
    (requestId reason : JSString) (st : State) : State * list Screen.Effect :=
  let '(sent, completion) := rejectMutation employee now error requestId reason in
  match completion with
  | returned =>
      let '(st, effects) :=
        succeeded
          {| Screen.title := "Leave Rejected";
             Screen.description :=
               [Screen.Literal "The leave request has been rejected."];
             Screen.variant := Some "destructive"; Screen.duration := None |} st in
      (st, List.map Screen.ui sent ++ effects)
  | thrown t =>
      (st,
       List.map Screen.ui sent ++
       [Screen.ui (console_error "Error rejecting leave:");
        Screen.toast
          {| Screen.title := "Error";
             Screen.description :=
               message_or t response_message "Failed to reject leave request";
             Screen.variant := Some "destructive"; Screen.duration := None |}])
  end%list.

(** [editStatusMutation.mutationFn] *)
Definition editStatusMutation (employee : option AuthContext.Employee)
    (now : JSString) (error : option Supabase.PostgrestError)
    (requestId newStatus comment : JSString) : list Event * Completion :=
  let call :=
    supabase
      (Supabase.Update (lit "leave_requests")
         ([(lit "status", Supabase.VString newStatus)]
          ++ approved_by_of employee
          ++ [(lit "approved_at", Supabase.VString now);
              (lit "rejection_reason", or_null comment)])%list
         (lit "id") requestId) in
  match error with
  | Some e => ([call], thrown (ResponseError e))
  | None => ([call], returned)
  end.

(** [editStatusMutation.mutate({ requestId, newStatus, comment })] *)
Definition editStatus_mutate (employee : option AuthContext.Employee)
    (now : JSString) (error : option Supabase.PostgrestError)
    (requestId newStatus comment : JSString) (st : State)
  : State * list Screen.Effect :=
  let '(sent, completion) :=
    editStatusMutation employee now error requestId newStatus comment in
  match completion with
  | returned =>
      let '(st, effects) :=
        succeeded
          {| Screen.title := "Status Updated";
             Screen.description :=
               [Screen.Literal "Leave request status has been updated successfully."];
             Screen.variant := None; Screen.duration := None |} st in
      (st, List.map Screen.ui sent ++ effects)
  | thrown _ =>
      (st,
       List.map Screen.ui sent ++
       [Screen.ui (console_error "Error updating leave status:");
        Screen.toast
          {| Screen.title := "Error";
             Screen.description := [Screen.Literal "Failed to update leave status"];
             Screen.variant := Some "destructive"; Screen.duration := None |}])
  end%list.

(** ** The handlers. Each reads the cells of the render it belongs to
    ([st]); what it sets is visible from the next render on. *)

Definition handleApproveRequest (employee : option AuthContext.Employee)
    (now : JSString) (error : option Supabase.PostgrestError)
    (requestId : JSString) (st : State) : State * list Screen.Effect :=
  approve_mutate employee now error requestId (reviewComment st) st.

Definition handleRejectRequest (employee : option AuthContext.Employee)
    (now : JSString) (error : option Supabase.PostgrestError)
    (response_message : JSString)
    (requestId : JSString) (st : State) : State * list Screen.Effect :=
  if not_str (trim (reviewComment st)) then
    (st,
     [Screen.toast
        {| Screen.title := "Comment Required";
           Screen.description :=
             [Screen.Literal "Please provide a reason for rejection."];
           Screen.variant := Some "destructive"; Screen.duration := None |}])
  else
    reject_mutate employee now error response_message requestId
      (reviewComment st) st.

(** The approve button of a pending row:
    [setSelectedRequest(request); setReviewComment("Leave request approved.");
     handleApproveRequest(request.id)]. The handler called last belongs to
    the same render as the click, so the comment it passes is the one of
    [st]; the two cells set before are the ones the mutation's callbacks
    start from. *)
Definition approveRow (employee : option AuthContext.Employee)
    (now : JSString) (error : option Supabase.PostgrestError)
    (request : LeaveRequest) (st : State) : State * list Screen.Effect :=
  approve_mutate employee now error (id request) (reviewComment st)
    (setReviewComment (lit "Leave request approved.")
       (setSelectedRequest (Some request) st)).

(** [reviewComment || fallback] *)
Definition comment_or (comment : JSString) (fallback : string) : JSString :=
  if not_str comment then lit fallback else comment.

(** The three buttons of the "Edit Leave Request Status" dialog. *)
Definition editApprove (employee : option AuthContext.Employee)
    (now : JSString) (error : option Supabase.PostgrestError)
    (request : LeaveRequest) (st : State) : State * list Screen.Effect :=
  editStatus_mutate employee now error (id request) (lit "approved")
    (comment_or (reviewComment st) "Status changed to approved") st.

Definition editReject (employee : option AuthContext.Employee)
    (now : JSString) (error : option Supabase.PostgrestError)
    (request : LeaveRequest) (st : State) : State * list Screen.Effect :=
  if not_str (trim (reviewComment st)) then
    (st,
     [Screen.toast
        {| Screen.title := "Comment Required";
           Screen.description :=
             [Screen.Literal "Please provide a reason for rejection"];
           Screen.variant := Some "destructive"; Screen.duration := None |}])
  else
    editStatus_mutate employee now error (id request) (lit "rejected")
      (reviewComment st) st.

Definition editReset (employee : option AuthContext.Employee)
    (now : JSString) (error : option Supabase.PostgrestError)
    (request : LeaveRequest) (st : State) : State * list Screen.Effect :=
  editStatus_mutate employee now error (id request) (lit "pending")
    (comment_or (reviewComment st) "Status reset to pending") st.

(** ** leaveStats *)

Definition status_union : list JSString :=
  [lit "pending"; lit "approved"; lit "rejected"].

Record LeaveStats := { pending : nat; approved : nat; rejected : nat }.

Definition leaveStats (leaveRequests : list LeaveRequest) : LeaveStats :=
  {| pending :=
       length (List.filter (fun r => strict_eq (status r) (lit "pending"))
                 leaveRequests);
     approved :=
       length (List.filter (fun r => strict_eq (status r) (lit "approved"))
                 leaveRequests);
     rejected :=
       length (List.filter (fun r => strict_eq (status r) (lit "rejected"))
                 leaveRequests) |}.

End LeaveScreen.

(* ===================================================================== *)
(** * src/components/admin/AdminTasks.tsx                                 *)
(* ===================================================================== *)

Module AdminTasks.
Import JS UI.
Local Open Scope string_scope.

(** interface Task *)
Record Task := {
  id : JSString;
  title : JSString;
  description : JSString;
  assigned_to : JSString;
  assigned_employee_name : option JSString;
  created_by : JSString;
  creator_name : option JSString;
  priority : JSString;
  status : JSString;
  due_date : JSString;
  completed_at : option JSString;
  created_at : JSString;
  rejection_note : option JSString
}.

Definition status_union : list JSString := TaskStatus.AdminTasks_Task_status.

(** What a mutation function ends with. *)
Inductive Completion :=
| returned
| thrown (message : JSString).

(** The [error] member of a response, with its [message]. *)
Record ResponseError := { message : JSString }.

Section WithDate.
(** The [Date] objects of the date picker and
    [format(date, 'yyyy-MM-dd')] of date-fns. *)
Variable Date : Type.
Variable format : Date -> JSString.

(** interface NewTask *)
Record NewTask := {
  new_title : JSString;
  new_description : JSString;
  new_assigned_to : JSString;
  new_priority : JSString;
  new_due_date : option Date
}.

(** The [useState] cells of the screen. *)
Record State := {
  searchTerm : JSString;
  statusFilter : JSString;
  showCreateDialog : bool;
  selectedTask : option Task;
  rejectionNote : JSString;
  newTask : NewTask
}.

Definition emptyTask : NewTask :=
  {| new_title := []; new_description := []; new_assigned_to := [];
     new_priority := lit "medium"; new_due_date := None |}.

(** [createTaskMutation.mutationFn] *)
Definition createTaskMutation (employee : option AuthContext.Employee)
    (error : option ResponseError) (task : NewTask)
  : list Event * Completion :=
  match employee with
  | None => ([], thrown (lit "User not authenticated"))
  | Some e =>
      if not_str (AuthContext.employee_id e) then
        ([], thrown (lit "User not authenticated"))
      else
        let call :=
          supabase
            (Supabase.Insert (lit "tasks")
               [(lit "title", Supabase.VString (new_title task));
                (lit "description", Supabase.VString (new_description task));
                (lit "assigned_to", Supabase.VString (new_assigned_to task));
                (lit "created_by", Supabase.VString (AuthContext.employee_id e));
                (lit "due_date",
                 match new_due_date task with
                 | Some d => Supabase.VString (format d)
                 | None => Supabase.VNull
                 end);
                (lit "priority", Supabase.VString (new_priority task));
                (lit "status", Supabase.VString (lit "not_started"))]) in
        match error with
        | Some err =>
            ([call; console_error "Supabase error:"],
             thrown (if not_str (message err) then lit "Failed to create task"
                     else message err))
        | None => ([call], returned)
        end
  end.

(** [createTaskMutation.mutate(task)] with its callbacks. *)
Definition create_mutate (employee : option AuthContext.Employee)
    (error : option ResponseError) (task : NewTask) (st : State)
  : State * list Screen.Effect :=
  let '(sent, completion) := createTaskMutation employee error task in
  match completion with
  | returned =>
      ({| searchTerm := searchTerm st; statusFilter := statusFilter st;
          showCreateDialog := false; selectedTask := selectedTask st;
          rejectionNote := rejectionNote st; newTask := emptyTask |},
       List.map Screen.ui sent ++
       [Screen.invalidateQueries "admin-tasks";
        Screen.toast
          {| Screen.title := "Task Created";
             Screen.description :=
               [Screen.Literal "Task has been assigned successfully"];
             Screen.variant := None; Screen.duration := None |}])
  | thrown m =>
      (st,
       List.map Screen.ui sent ++
       [Screen.ui (console_error "Error creating task:");
        Screen.toast
          {| Screen.title := "Error Creating Task";
             Screen.description :=
               if not_str m
               then [Screen.Literal "Failed to create task. Please try again."]
               else [Screen.Interpolated m];
             Screen.variant := Some "destructive"; Screen.duration := None |}])
  end%list.

Definition validation_error (text : string) : Screen.Effect :=
  Screen.toast
    {| Screen.title := "Validation Error";
       Screen.description := [Screen.Literal text];
       Screen.variant := Some "destructive"; Screen.duration := None |}.

Definition handleCreateTask (employee : option AuthContext.Employee)
    (error : option ResponseError) (st : State) : State * list Screen.Effect :=
  if not_str (trim (new_title (newTask st))) then
    (st, [validation_error "Please enter a task title"])
  else if not_str (new_assigned_to (newTask st)) then
    (st, [validation_error "Please select an employee to assign the task to"])
  else
    match new_due_date (newTask st) with
    | None => (st, [validation_error "Please select a due date"])
    | Some _ => create_mutate employee error (newTask st) st
    end.

End WithDate.

Record TaskStats := {
  not_started : nat;
  in_progress : nat;
  completed : nat;
  shelved : nat;
  accepted : nat;
  rejected : nat
}.

Definition count (s : JSString) (tasks : list Task) : nat :=
  length (List.filter (fun t => strict_eq (status t) s) tasks).

Definition taskStats (tasks : list Task) : TaskStats :=
  {| not_started := count (lit "not_started") tasks;
     in_progress := count (lit "in_progress") tasks;
     completed := count (lit "completed") tasks;
     shelved := count (lit "shelved") tasks;
     accepted := count (lit "accepted") tasks;
     rejected := count (lit "rejected") tasks |}.

End AdminTasks.

(* ===================================================================== *)
(** * src/components/hr/EmployeeTasks.tsx                                 *)
(* ===================================================================== *)

Module EmployeeTasks.
Import JS UI.
Local Open Scope string_scope.

(** interface Task *)
Record Task := {
  id : JSString;
  title : JSString;
  description : JSString;
  status : JSString;
  due_date : JSString;
  priority : JSString;
  rejection_note : option JSString;
  created_at : JSString
}.

Definition status_union : list JSString :=
  [lit "pending"; lit "completed"; lit "accepted"; lit "rejected"].

Definition pendingTasks (tasks : list Task) : list Task :=
  List.filter (fun task => strict_eq (status task) (lit "pending")) tasks.
Definition completedTasks (tasks : list Task) : list Task :=
  List.filter (fun task => strict_eq (status task) (lit "completed")) tasks.
Definition acceptedTasks (tasks : list Task) : list Task :=
  List.filter (fun task => strict_eq (status task) (lit "accepted")) tasks.
Definition rejectedTasks (tasks : list Task) : list Task :=
  List.filter (fun task => strict_eq (status task) (lit "rejected")) tasks.

(** The tasks the three sections of the screen render: pending, rejected,
    and completed followed by accepted. *)
Definition rendered (tasks : list Task) : list Task :=
  (pendingTasks tasks ++ rejectedTasks tasks
   ++ (completedTasks tasks ++ acceptedTasks tasks))%list.

(** [completeTaskMutation.mutate(taskId)], as [handleTaskComplete] calls
    it, with its callbacks. *)
Definition handleTaskComplete (error : option Supabase.PostgrestError)
    (taskId : JSString) : list Screen.Effect :=
  let call :=
    Screen.ui
      (supabase
         (Supabase.Update (lit "tasks")
            [(lit "status", Supabase.VString (lit "completed"))]
            (lit "id") taskId)) in
  match error with
  | None =>
      [call; Screen.invalidateQueries "employee-tasks";
       Screen.toast
         {| Screen.title := "Task Completed";
            Screen.description :=
              [Screen.Literal "Task has been marked as completed and sent for review"];
            Screen.variant := None; Screen.duration := None |}]
  | Some _ =>
      [call; Screen.ui (console_error "Error completing task:");
       Screen.toast
         {| Screen.title := "Error";
            Screen.description := [Screen.Literal "Failed to update task status"];
            Screen.variant := Some "destructive"; Screen.duration := None |}]
  end.

End EmployeeTasks.

(* ===================================================================== *)
(** * Properties of the office-proximity check                            *)
(* ===================================================================== *)

Section OfficeFacts.
Import Office.
Local Open Scope R_scope.

Lemma Rleb_true_iff (a b : R) : Rleb a b = true <-> a <= b.
Proof. unfold Rleb; destruct (Rle_dec a b); split; intros; try easy; lra. Qed.

Lemma Rleb_false_iff (a b : R) : Rleb a b = false <-> b < a.
Proof. unfold Rleb; destruct (Rle_dec a b); split; intros; try easy; lra. Qed.

Lemma Math_round_near (x : R) (n : Z) :
  IZR n - 0.5 <= x < IZR n + 0.5 -> Math_round x = IZR n.
Proof.
  intros [Hlo Hhi]. unfold Math_round. f_equal.
  apply Zfloor_eq. lra.
Qed.

(** [Math.round] returns an integer at most one half away, the upper one
    at a tie. *)
Lemma Math_round_nearest (x : R) :
  exists n : Z, Math_round x = IZR n /\ IZR n - 0.5 <= x < IZR n + 0.5.
Proof.
  exists (Zfloor (x + 0.5)). split; [reflexivity |].
  pose proof (Zfloor_bound (x + 0.5)). lra.
Qed.

Lemma Math_atan2_pos (y x : R) : 0 < x -> Math_atan2 y x = atan (y / x).
Proof. intros Hx. unfold Math_atan2. destruct (Rlt_dec 0 x); [reflexivity | lra]. Qed.

Lemma Math_atan2_0_r (y : R) : 0 < y -> Math_atan2 y 0 = PI / 2.
Proof.
  intros Hy. unfold Math_atan2.
  destruct (Rlt_dec 0 0); [lra|]. destruct (Rlt_dec 0 y); [reflexivity | lra].
Qed.

Lemma sin_half_sqr (x : R) : sin (x / 2) * sin (x / 2) = (1 - cos x) / 2.
Proof.
  replace x with (2 * (x / 2)) at 3 by field.
  rewrite cos_2a_sin. field.
Qed.

Lemma cos_half_sqr (x : R) : cos (x / 2) * cos (x / 2) = (1 + cos x) / 2.
Proof.
  replace x with (2 * (x / 2)) at 3 by field.
  rewrite cos_2a_cos. field.
Qed.

Lemma calculateDistance_unfold (lat1 lng1 lat2 lng2 : R) :
  calculateDistance lat1 lng1 lat2 lng2 =
  6371e3 * (2 * Math_atan2 (sqrt (a_of lat1 lng1 lat2 lng2))
                           (sqrt (1 - a_of lat1 lng1 lat2 lng2))).
Proof. reflexivity. Qed.

Lemma a_of_haversine_h (lat1 lng1 lat2 lng2 : R) :
  a_of lat1 lng1 lat2 lng2 = haversine_h lat1 lng1 lat2 lng2.
Proof.
  unfold a_of, haversine_h, hav, radians, Rsqr.
  replace (lat2 * PI / 180 - lat1 * PI / 180) with ((lat2 - lat1) * PI / 180) by field.
  replace (lng2 * PI / 180 - lng1 * PI / 180) with ((lng2 - lng1) * PI / 180) by field.
  ring.
Qed.

(** [a] is a convex combination of [sin² ((φ2 - φ1) / 2)] and
    [cos² ((φ1 + φ2) / 2)], hence lies in the unit interval whatever the
    inputs are. *)
Lemma a_of_bounds (lat1 lng1 lat2 lng2 : R) :
  0 <= a_of lat1 lng1 lat2 lng2 <= 1.
Proof.
  unfold a_of.
  set (p1 := lat1 * PI / 180). set (p2 := lat2 * PI / 180).
  set (dl := (lng2 - lng1) * PI / 180).
  replace ((lat2 - lat1) * PI / 180) with (p2 - p1) by (unfold p1, p2; field).
  rewrite Rmult_assoc with (r3 := sin (dl / 2)).
  rewrite !sin_half_sqr.
  assert (HA : 0 <= (1 - cos (p2 - p1)) / 2 <= 1)
    by (pose proof (COS_bound (p2 - p1)); lra).
  assert (HB : 0 <= (1 - cos (p2 - p1)) / 2 + cos p1 * cos p2 <= 1).
  { rewrite cos_minus.
    replace ((1 - (cos p2 * cos p1 + sin p2 * sin p1)) / 2 + cos p1 * cos p2)
      with ((1 + cos (p1 + p2)) / 2) by (rewrite cos_plus; field).
    pose proof (COS_bound (p1 + p2)); lra. }
  assert (Hu : 0 <= (1 - cos dl) / 2 <= 1) by (pose proof (COS_bound dl); lra).
  set (A := (1 - cos (p2 - p1)) / 2) in *.
  set (B := cos p1 * cos p2) in *.
  set (u := (1 - cos dl) / 2) in *.
  nra.
Qed.

(** On the unit interval the [atan2] form the code evaluates is the arcsine
    of the textbook formula. *)
Lemma atan2_sqrt_asin (a : R) :
  0 <= a <= 1 -> Math_atan2 (sqrt a) (sqrt (1 - a)) = asin (sqrt a).
Proof.
  intros [H0 H1]. destruct (Req_dec a 1) as [-> | Hne].
  - replace (1 - 1) with 0 by ring. rewrite sqrt_0, sqrt_1, asin_1.
    apply Math_atan2_0_r; lra.
  - assert (Hlt : a < 1) by lra.
    assert (Hs : 0 <= sqrt a < 1).
    { split; [apply sqrt_pos|]. rewrite <- sqrt_1. apply sqrt_lt_1; lra. }
    rewrite Math_atan2_pos by (apply sqrt_lt_R0; lra).
    rewrite asin_atan by lra.
    unfold Rsqr. rewrite sqrt_sqrt by lra. reflexivity.
Qed.

Lemma calculateDistance_haversine (lat1 lng1 lat2 lng2 : R) :
  calculateDistance lat1 lng1 lat2 lng2 =
  haversine_distance mean_earth_radius lat1 lng1 lat2 lng2.
Proof.
  rewrite calculateDistance_unfold, atan2_sqrt_asin by apply a_of_bounds.
  unfold haversine_distance, mean_earth_radius.
  rewrite a_of_haversine_h. lra.
Qed.

(** A point [d] degrees due north of another one (less than half a turn)
    is at distance [R * d * PI / 180]. *)
Lemma calculateDistance_due_north (lat0 lng0 d : R) :
  0 <= d < 180 ->
  calculateDistance (lat0 + d) lng0 lat0 lng0 = 6371e3 * (d * PI / 180).
Proof.
  intros [Hd0 Hd1]. pose proof PI_RGT_0 as Hpi.
  set (t := d * PI / 180).
  assert (Ht : 0 <= t / 2 < PI / 2) by (unfold t; split; nra).
  rewrite calculateDistance_unfold.
  assert (Ha : a_of (lat0 + d) lng0 lat0 lng0 = sin (t / 2) * sin (t / 2)).
  { unfold a_of.
    replace ((lat0 - (lat0 + d)) * PI / 180 / 2) with (- (t / 2)) by (unfold t; field).
    replace ((lng0 - lng0) * PI / 180 / 2) with 0 by field.
    rewrite sin_neg, sin_0. ring. }
  rewrite Ha.
  assert (Hsin : 0 <= sin (t / 2)) by (apply sin_ge_0; lra).
  assert (Hcos : 0 < cos (t / 2)) by (apply cos_gt_0; lra).
  rewrite sqrt_square by exact Hsin.
  replace (1 - sin (t / 2) * sin (t / 2)) with (cos (t / 2) * cos (t / 2))
    by (pose proof (sin2_cos2 (t / 2)) as E; unfold Rsqr in E; lra).
  rewrite sqrt_square by lra.
  rewrite Math_atan2_pos by exact Hcos.
  change (sin (t / 2) / cos (t / 2)) with (tan (t / 2)).
  rewrite atan_tan by lra. f_equal. field.
Qed.

(** Four decimals of [PI], from the Machin-like series of the library. *)
Lemma PI_bounds : 3.14159 < PI < 3.1416.
Proof.
  pose proof (PI_2_3_7_ineq 2) as [Hlo Hhi].
  unfold PI_2_3_7_tg, tg_alt, Ratan_seq in Hlo, Hhi.
  simpl in Hlo, Hhi. lra.
Qed.

Lemma calculateDistance_same (lat1 lng1 : R) :
  calculateDistance lat1 lng1 lat1 lng1 = 0.
Proof.
  replace lat1 with (lat1 + 0) at 1 by ring.
  rewrite calculateDistance_due_north by lra. lra.
Qed.

Lemma isWithinRange_iff (employeeLat employeeLng : R) :
  isWithinRange (isWithinOfficeRange employeeLat employeeLng) = true <->
  calculateDistance employeeLat employeeLng 11.603722 76.209250 <= 100.
Proof. unfold isWithinOfficeRange; simpl. apply Rleb_true_iff. Qed.



Lemma within_between (eps computed exact : R) :
  OfficeComputed.within eps computed exact ->
  exact - eps <= computed <= exact + eps.
Proof.
  unfold OfficeComputed.within, Rabs.
  destruct (Rcase_abs (computed - exact)); lra.
Qed.

Lemma between_within (eps computed exact : R) :
  exact - eps <= computed <= exact + eps ->
  OfficeComputed.within eps computed exact.
Proof.
  unfold OfficeComputed.within, Rabs.
  destruct (Rcase_abs (computed - exact)); lra.
Qed.

(** Over the reals [isWithinOfficeRange] is [rangeCheck_of] at the value of
    the formula. *)
Lemma isWithinOfficeRange_computed (employeeLat employeeLng : R) :
  isWithinOfficeRange employeeLat employeeLng =
  OfficeComputed.rangeCheck_of
    (calculateDistance employeeLat employeeLng
       (lat (coordinates OFFICE_CONFIG)) (lng (coordinates OFFICE_CONFIG))).
Proof. reflexivity. Qed.




(** C2: a point whose computed distance from the office is exactly the
    allowed radius is within range: the comparison is [<=]. *)
Theorem C2_boundary_inclusive (employeeLat employeeLng : R) :
  calculateDistance employeeLat employeeLng
    (lat (coordinates OFFICE_CONFIG)) (lng (coordinates OFFICE_CONFIG))
  = allowedRadius OFFICE_CONFIG ->
  isWithinRange (isWithinOfficeRange employeeLat employeeLng) = true.
Proof.
  intros Heq. unfold isWithinOfficeRange; simpl in *.
  apply Rleb_true_iff. rewrite Heq. apply Rle_refl.
Qed.

(** The point exactly 100 m due north of the office. *)
Lemma boundary_point_distance :
  calculateDistance (11.603722 + 100 * 180 / (6371e3 * PI)) 76.209250
                    11.603722 76.209250 = 100.
Proof.
  pose proof PI_bounds as HPI.
  assert (Hd : 0 <= 100 * 180 / (6371e3 * PI) < 180).
  { split.
    - apply Rmult_le_pos; [lra|]. left. apply Rinv_0_lt_compat. nra.
    - apply Rmult_lt_reg_r with (6371e3 * PI); [nra|].
      unfold Rdiv. rewrite Rmult_assoc, Rinv_l by nra. nra. }
  rewrite calculateDistance_due_north by exact Hd.
  field. lra.
Qed.

Lemma C2_boundary_inclusive_witness :
  calculateDistance (11.603722 + 100 * 180 / (6371e3 * PI)) 76.209250
    (lat (coordinates OFFICE_CONFIG)) (lng (coordinates OFFICE_CONFIG))
  = allowedRadius OFFICE_CONFIG
  /\ isWithinRange
       (isWithinOfficeRange (11.603722 + 100 * 180 / (6371e3 * PI)) 76.209250)
     = true.
Proof.
  split.
  - exact boundary_point_distance.
  - apply C2_boundary_inclusive. exact boundary_point_distance.
Defined.

(** C3: the distance from a point to itself is 0; the configured radius is
    positive, and an employee standing at the office coordinates gets
    distance 0 and is within range. *)
Theorem C3_coincident_points :
  (forall lat1 lng1 : R, calculateDistance lat1 lng1 lat1 lng1 = 0)
  /\ 0 < allowedRadius OFFICE_CONFIG
  /\ isWithinOfficeRange (lat (coordinates OFFICE_CONFIG))
                         (lng (coordinates OFFICE_CONFIG))
     = {| isWithinRange := true; distance := 0 |}.
Proof.
  split; [exact calculateDistance_same | split; [simpl; lra |]].
  unfold isWithinOfficeRange. rewrite calculateDistance_same.
  f_equal.
  - apply Rleb_true_iff. simpl. lra.
  - apply (Math_round_near _ 0). lra.
Qed.

(** C4: [calculateDistance] gives the same value when its two points are
    exchanged. *)
Theorem C4_calculateDistance_symmetric (lat1 lng1 lat2 lng2 : R) :
  calculateDistance lat1 lng1 lat2 lng2 = calculateDistance lat2 lng2 lat1 lng1.
Proof.
  rewrite !calculateDistance_unfold.
  assert (Ha : a_of lat1 lng1 lat2 lng2 = a_of lat2 lng2 lat1 lng1).
  { unfold a_of.
    replace ((lat1 - lat2) * PI / 180 / 2) with (- ((lat2 - lat1) * PI / 180 / 2)) by field.
    replace ((lng1 - lng2) * PI / 180 / 2) with (- ((lng2 - lng1) * PI / 180 / 2)) by field.
    rewrite !sin_neg. ring. }
  now rewrite Ha.
Qed.

End OfficeFacts.

(* ===================================================================== *)
(** * Properties of [trim]                                                *)
(* ===================================================================== *)

Section TrimFacts.
Import JS.

Lemma trimStart_nil_iff (s : JSString) : trimStart s = [] <-> blank s.
Proof.
  unfold blank. induction s as [| c s IH]; simpl.
  - split; [constructor | reflexivity].
  - destruct (isWhiteSpace c) eqn:Hc.
    + rewrite IH. split; [now constructor | now inversion 1].
    + split; [discriminate | inversion 1; congruence].
Qed.

Lemma trimStart_head (s : JSString) (c : N) (t : JSString) :
  trimStart s = c :: t -> isWhiteSpace c = false.
Proof.
  induction s as [| d s IH]; simpl; [discriminate |].
  destruct (isWhiteSpace d) eqn:Hd; [exact IH |].
  intros [= -> _]. exact Hd.
Qed.

Lemma blank_rev (s : JSString) : blank (rev s) <-> blank s.
Proof.
  unfold blank. split; intros H.
  - rewrite <- (rev_involutive s). now apply List.Forall_rev.
  - now apply List.Forall_rev.
Qed.

Lemma trim_nil_iff (s : JSString) : trim s = [] <-> blank s.
Proof.
  unfold trim, trimEnd. split.
  - intros H. apply (f_equal (@rev N)) in H. rewrite rev_involutive in H.
    simpl in H. apply trimStart_nil_iff in H.
    apply (proj1 (blank_rev _)) in H.
    apply trimStart_nil_iff.
    destruct (trimStart s) as [| c t] eqn:E; [reflexivity |].
    apply trimStart_head in E. unfold blank in H.
    apply Forall_cons_1 in H as [Hc _]. congruence.
  - intros H. apply trimStart_nil_iff in H. now rewrite H.
Qed.

Lemma not_str_trim_iff (s : JSString) : not_str (trim s) = true <-> blank s.
Proof.
  rewrite <- trim_nil_iff. destruct (trim s); simpl; split; congruence.
Qed.

Lemma not_str_false_iff (s : JSString) : not_str s = false <-> s <> [].
Proof. destruct s; simpl; split; congruence. Qed.

Lemma strict_ne_true_iff (a b : JSString) : strict_ne a b = true <-> a <> b.
Proof.
  unfold strict_ne, strict_eq. rewrite negb_true_iff, bool_decide_eq_false.
  reflexivity.
Qed.

End TrimFacts.

(* ===================================================================== *)
(** * Properties of attendance marking                                    *)
(* ===================================================================== *)

Section AttendanceFacts.
Import JS UI Attendance.
Local Open Scope string_scope.

Lemma in_office_false (e : AuthContext.Employee) :
  AuthContext.location e <> Some (lit "in-office") ->
  in_office (Some e) = false.
Proof.
  intros Hne. unfold in_office. destruct (AuthContext.location e) as [l |]; [| reflexivity].
  unfold strict_eq. apply bool_decide_eq_false. congruence.
Qed.

Lemma submit_no_distance_refusal clock server method id loc st ev :
  In ev (snd (submit clock server method id loc st)) -> ~ distance_refusal ev.
Proof.
  unfold submit, failed, distance_refusal.
  destruct (todayAttendance _) as [today |]; simpl.
  - destruct (not_nullable _); simpl.
    + destruct (updateError server); simpl; intros H [t [-> Ht]];
        repeat (destruct H as [H | H]; [inversion H; subst; discriminate |]); exact H.
    + intros H [t [-> Ht]];
        repeat (destruct H as [H | H]; [inversion H; subst; discriminate |]); exact H.
  - destruct (insertError server); simpl; intros H [t [-> Ht]];
      repeat (destruct H as [H | H]; [inversion H; subst; discriminate |]); exact H.
Qed.

Lemma guards_no_distance_refusal (e : AuthContext.Employee)
    clock server method st ev :
  in_office (Some e) = false ->
  In ev (snd (handleMarkAttendance (Some e) clock server method st)) ->
  ~ distance_refusal ev.
Proof.
  intros Hoff. unfold handleMarkAttendance. rewrite Hoff. simpl.
  destruct (not_str _); simpl.
  { intros [<- | []] [t [[= <-] Ht]]; discriminate. }
  destruct (strict_ne _ _); simpl.
  { intros [<- | []] [t [[= <-] Ht]]; discriminate. }
  destruct (location st) as [loc |]; simpl; [| intros []].
  apply submit_no_distance_refusal.
Qed.

(** C5: for an employee whose location flag is not 'in-office', the
    location check stored by the position callback is
    [{isWithinRange: true, distance: 0}] whatever the coordinates are, and
    [handleMarkAttendance] never refuses on distance grounds: no
    "Location Check Failed" toast is produced, the result does not depend
    on the stored check, and once the identifier guards pass and a location
    is known the handler goes on to the write. *)
Theorem C5_remote_employee_always_in_range (e : AuthContext.Employee) :
  AuthContext.location e <> Some (lit "in-office") ->
  (forall coords st,
     locationCheck (onPosition (Some e) coords st) =
     Some {| Office.isWithinRange := true; Office.distance := 0 |})
  /\ (forall clock server method st ev,
        In ev (snd (handleMarkAttendance (Some e) clock server method st)) ->
        ~ distance_refusal ev)
  /\ (forall clock server method st check,
        snd (handleMarkAttendance (Some e) clock server method
               (setLocationCheck check st)) =
        snd (handleMarkAttendance (Some e) clock server method st))
  /\ (forall clock server method st loc,
        trim (idToUse method st) = AuthContext.employee_id e ->
        trim (idToUse method st) <> [] ->
        location st = Some loc ->
        handleMarkAttendance (Some e) clock server method st =
        submit clock server method (idToUse method st) loc st).
Proof.
  intros Hflag. pose proof (in_office_false e Hflag) as Hoff.
  repeat split.
  - intros coords st. unfold onPosition. rewrite Hoff. reflexivity.
  - intros clock server method st ev. now apply guards_no_distance_refusal.
  - intros clock server method st check.
    unfold handleMarkAttendance. rewrite Hoff. simpl.
    replace (idToUse method (setLocationCheck check st)) with (idToUse method st)
      by (now destruct method).
    destruct (not_str _); [reflexivity |].
    destruct (strict_ne _ _); [reflexivity |].
    destruct (location st); [| reflexivity].
    unfold submit, failed. simpl.
    destruct (todayAttendance st); simpl.
    + destruct (not_nullable _); [| reflexivity].
      destruct (updateError server); reflexivity.
    + destruct (insertError server); reflexivity.
  - intros clock server method st loc Hid Hne Hloc.
    unfold handleMarkAttendance. rewrite Hoff, Hloc. simpl.
    apply not_str_false_iff in Hne. rewrite Hne.
    destruct (strict_ne _ _) eqn:E; [| reflexivity].
    apply strict_ne_true_iff in E. contradiction.
Qed.

Lemma C5_remote_employee_witness :
  let e := {| AuthContext.employee_id := lit "E1";
              AuthContext.location := Some (lit "work-from-home") |} in
  AuthContext.location e <> Some (lit "in-office")
  /\ (forall coords st,
        locationCheck (onPosition (Some e) coords st) =
        Some {| Office.isWithinRange := true; Office.distance := 0 |}).
Proof.
  simpl. split; [discriminate |].
  apply (C5_remote_employee_always_in_range
           {| AuthContext.employee_id := lit "E1";
              AuthContext.location := Some (lit "work-from-home") |}).
  discriminate.
Defined.

(** C6: when no location is stored, [handleMarkAttendance] leaves an error
    message, sends nothing to the backend and changes nothing else of the
    attendance state; if the identifier guards pass, the message is the one
    about location services and no toast is shown. *)
Theorem C6_no_location_blocks (employee : option AuthContext.Employee)
    (clock : Clock) (server : Server) (method : Method) (st : State) :
  location st = None ->
  let r := handleMarkAttendance employee clock server method st in
  (exists t, message (fst r) = Some {| type := error; text := t |})
  /\ ~ wrote (snd r)
  /\ todayAttendance (fst r) = todayAttendance st
  /\ (trim (idToUse method st) <> [] ->
      (forall e, employee = Some e ->
                 trim (idToUse method st) = AuthContext.employee_id e) ->
      r = (setMessage
             (Some {| type := error;
                      text := [Str "Location not available. Please enable location services."] |})
             st, [])).
Proof.
  intros Hloc. unfold handleMarkAttendance. rewrite Hloc. simpl.
  destruct (not_str (trim (idToUse method st))) eqn:Hblank; simpl.
  { repeat split; eauto.
    - intros [c [H | []]]; discriminate.
    - intros Hne. apply not_str_false_iff in Hne. congruence. }
  destruct employee as [e |]; simpl.
  - destruct (strict_ne _ _) eqn:Hown; simpl.
    + repeat split; eauto.
      * intros [c [H | []]]; discriminate.
      * intros _ Hid. apply strict_ne_true_iff in Hown.
        exfalso. apply Hown. now apply Hid.
    + repeat split; eauto. intros [c []].
  - repeat split; eauto. intros [c []].
Qed.

Lemma C6_no_location_witness :
  location (setManualEmployeeId (lit "E1") initial) = None
  /\ ~ wrote (snd (handleMarkAttendance
                     (Some {| AuthContext.employee_id := lit "E1";
                              AuthContext.location := Some (lit "in-office") |})
                     {| localDate := lit "2025-01-01";
                        localDateTime := lit "2025-01-01T09:00:00.000Z" |}
                     {| updateError := None; data := None; insertError := None |}
                     manual (setManualEmployeeId (lit "E1") initial))).
Proof.
  split; [reflexivity |].
  apply (C6_no_location_blocks
           (Some {| AuthContext.employee_id := lit "E1";
                    AuthContext.location := Some (lit "in-office") |})
           {| localDate := lit "2025-01-01";
              localDateTime := lit "2025-01-01T09:00:00.000Z" |}
           {| updateError := None; data := None; insertError := None |}
           manual (setManualEmployeeId (lit "E1") initial)).
  reflexivity.
Defined.

(** C10, as stated, fails: the guard compares the trimmed identifier. With
    " E1" typed into the manual field by employee "E1" (working from home,
    position received, no attendance yet today) the submitted identifier
    differs from the employee's own, no access-denied toast is shown and the
    check-in is inserted, under the identifier as typed. *)
Lemma C10_padded_id_counterexample :
  let e := {| AuthContext.employee_id := lit "E1";
              AuthContext.location := Some (lit "work-from-home") |} in
  let st := onPosition (Some e) {| Office.lat := 0; Office.lng := 0 |}
              (setCheckingAttendance false
                 (setManualEmployeeId (lit " E1")
                    (setEmployeeId (lit "E1") initial))) in
  let clock := {| localDate := lit "2025-01-01";
                  localDateTime := lit "2025-01-01T09:00:00.000Z" |} in
  let server := {| updateError := None; data := None; insertError := None |} in
  idToUse manual st <> AuthContext.employee_id e
  /\ snd (handleMarkAttendance (Some e) clock server manual st) =
     [supabase
        (Supabase.Insert (lit "attendance")
           [(lit "employee_id", Supabase.VString (lit " E1"));
            (lit "date", Supabase.VString (lit "2025-01-01"));
            (lit "check_in_time", Supabase.VString (lit "2025-01-01T09:00:00.000Z"));
            (lit "location_lat", Supabase.VNumber 0);
            (lit "location_lng", Supabase.VNumber 0);
            (lit "status", Supabase.VString (lit "present"));
            (lit "method", Supabase.VString (lit "manual"))]);
      toast {| title := "✓ Success";
               description := [Str "Attendance check-in successful!"];
               variant := None; duration := Some 5000%Z |}].
Proof. split; [discriminate | reflexivity]. Qed.

(** C10, amended: when the trimmed identifier differs from the signed-in
    employee's own [employee_id], [handleMarkAttendance] sends nothing to the
    backend; it shows the access-denied error when the trimmed identifier is
    not empty, and the "Employee ID is required" error when it is. *)
Theorem C10_other_id_refused (e : AuthContext.Employee)
    (clock : Clock) (server : Server) (method : Method) (st : State) :
  trim (idToUse method st) <> AuthContext.employee_id e ->
  let r := handleMarkAttendance (Some e) clock server method st in
  ~ wrote (snd r)
  /\ (trim (idToUse method st) <> [] ->
      r = (setMessage
             (Some {| type := error;
                      text := [Str "You can only mark attendance for your own Employee ID"] |})
             st,
           [toast {| title := "Access Denied";
                     description := [Str "You cannot mark attendance for other employees"];
                     variant := Some "destructive"; duration := Some 5000%Z |}]))
  /\ (trim (idToUse method st) = [] ->
      r = (setMessage
             (Some {| type := error; text := [Str "Employee ID not found"] |}) st,
           [toast {| title := "Error";
                     description := [Str "Employee ID is required"];
                     variant := Some "destructive"; duration := None |}])).
Proof.
  intros Hother. apply strict_ne_true_iff in Hother.
  unfold handleMarkAttendance. simpl. rewrite Hother.
  destruct (trim (idToUse method st)) as [| c t] eqn:Hid; simpl.
  - repeat split; try congruence. intros [c [H | []]]; discriminate.
  - repeat split; try congruence. intros [c' [H | []]]; discriminate.
Qed.

Lemma C10_other_id_refused_witness :
  let e := {| AuthContext.employee_id := lit "E1";
              AuthContext.location := Some (lit "work-from-home") |} in
  let st := onPosition (Some e) {| Office.lat := 0; Office.lng := 0 |}
              (setCheckingAttendance false
                 (setManualEmployeeId (lit "E2")
                    (setEmployeeId (lit "E1") initial))) in
  let clock := {| localDate := lit "2025-01-01";
                  localDateTime := lit "2025-01-01T09:00:00.000Z" |} in
  let server := {| updateError := None; data := None; insertError := None |} in
  trim (idToUse manual st) <> AuthContext.employee_id e
  /\ ~ wrote (snd (handleMarkAttendance (Some e) clock server manual st)).
Proof.
  intros e st clock server.
  split; [discriminate |].
  apply (C10_other_id_refused e clock server manual st). discriminate.
Defined.

End AttendanceFacts.

(* ===================================================================== *)
(** * Properties of the leave decisions                                   *)
(* ===================================================================== *)

Section LeaveFacts.
Import JS UI Leave.
Local Open Scope string_scope.

Lemma set_columns_decided (s by_ at_ : JSString) (why : Supabase.Value)
    (r : LeaveRequest) :
  fold_left set_column
    [(lit "status", Supabase.VString s);
     (lit "approved_by", Supabase.VString by_);
     (lit "approved_at", Supabase.VString at_);
     (lit "rejection_reason", why)] r
  = decided s by_ at_ (nullable why) r.
Proof. reflexivity. Qed.

Lemma alter_present (f : LeaveRequest -> LeaveRequest)
    (table : gmap JSString LeaveRequest) (k : JSString) (r : LeaveRequest) :
  table !! k = Some r -> alter f k table = <[k := f r]> table.
Proof.
  intros Hk. apply map_eq. intros i. destruct (decide (i = k)) as [-> | Hne].
  - now rewrite lookup_alter_eq, lookup_insert_eq, Hk.
  - now rewrite lookup_alter_ne, lookup_insert_ne by congruence.
Qed.

Lemma execute_update_one (table : gmap JSString LeaveRequest)
    (values : list (JSString * Supabase.Value)) (key : JSString)
    (r : LeaveRequest) :
  table !! key = Some r ->
  execute_all
    [supabase (Supabase.Update (lit "leave_requests") values (lit "id") key)]
    table
  = <[key := fold_left set_column values r]> table.
Proof.
  intros Hrow. unfold execute_all, execute. cbn [fold_left].
  change (strict_eq (lit "leave_requests") (lit "leave_requests")
          && strict_eq (lit "id") (lit "id")) with true.
  cbv iota. now apply alter_present.
Qed.

(** C7: with an administrator signed in, approving sends exactly one
    request, an update of [leave_requests] filtered on the request's [id]
    that sets [status] to 'approved', [approved_by] to the administrator's
    [employee_id] and [approved_at] to the current time; rejecting (with a
    reason that is not blank) sends exactly one such update with [status]
    'rejected'. Carried out on a table where the request is pending, the
    update changes that row, and only that row, to the decided one. *)
Theorem C7_decision_is_one_update (admin : AuthContext.Employee)
    (now requestId comment reason : JSString)
    (error : option Supabase.PostgrestError) :
  trim reason <> [] ->
  let approve :=
    fst (approveMutation (Some admin) now error requestId comment) in
  let reject :=
    fst (rejectMutation (Some admin) now error requestId reason) in
  approve =
    [supabase
       (Supabase.Update (lit "leave_requests")
          [(lit "status", Supabase.VString (lit "approved"));
           (lit "approved_by", Supabase.VString (AuthContext.employee_id admin));
           (lit "approved_at", Supabase.VString now);
           (lit "rejection_reason", or_null comment)]
          (lit "id") requestId)]
  /\ reject =
    [supabase
       (Supabase.Update (lit "leave_requests")
          [(lit "status", Supabase.VString (lit "rejected"));
           (lit "approved_by", Supabase.VString (AuthContext.employee_id admin));
           (lit "approved_at", Supabase.VString now);
           (lit "rejection_reason", Supabase.VString reason)]
          (lit "id") requestId)]
  /\ (forall (table : gmap JSString LeaveRequest) (r : LeaveRequest),
        table !! requestId = Some r ->
        status r = lit "pending" ->
        execute_all approve table =
          <[requestId := decided (lit "approved") (AuthContext.employee_id admin)
                           now (nullable (or_null comment)) r]> table
        /\ execute_all reject table =
          <[requestId := decided (lit "rejected") (AuthContext.employee_id admin)
                           now (Some reason) r]> table).
Proof.
  intros Hreason approve reject. apply not_str_false_iff in Hreason.
  match goal with |- _ = ?a /\ _ = ?b /\ _ =>
    assert (Ha : approve = a)
      by (unfold approve, approveMutation; destruct error; reflexivity);
    assert (Hr : reject = b)
      by (unfold reject, rejectMutation; rewrite Hreason; destruct error;
          reflexivity)
  end.
  split; [exact Ha | split; [exact Hr |]].
  intros table r Hrow _. rewrite Ha, Hr.
  now rewrite !(execute_update_one _ _ _ r Hrow), !set_columns_decided.
Qed.

Lemma C7_decision_witness :
  let admin := {| AuthContext.employee_id := lit "A1";
                  AuthContext.location := Some (lit "in-office") |} in
  trim (lit "No cover that week") <> []
  /\ fst (rejectMutation (Some admin) (lit "2025-01-01T09:00:00.000Z") None
            (lit "7") (lit "No cover that week")) =
     [supabase
        (Supabase.Update (lit "leave_requests")
           [(lit "status", Supabase.VString (lit "rejected"));
            (lit "approved_by", Supabase.VString (lit "A1"));
            (lit "approved_at", Supabase.VString (lit "2025-01-01T09:00:00.000Z"));
            (lit "rejection_reason", Supabase.VString (lit "No cover that week"))]
           (lit "id") (lit "7"))].
Proof.
  intros admin. split; [discriminate |].
  apply (C7_decision_is_one_update admin (lit "2025-01-01T09:00:00.000Z")
           (lit "7") [] (lit "No cover that week") None).
  discriminate.
Defined.

(** C9: for a reason that is empty or made of white space only, the reject
    mutation throws "Rejection reason is required" and sends nothing, so the
    table is as it was; a request goes out exactly when the trimmed reason
    is not empty. *)
Theorem C9_blank_reason_refused (employee : option AuthContext.Employee)
    (now requestId reason : JSString)
    (error : option Supabase.PostgrestError)
    (table : gmap JSString LeaveRequest) :
  (blank reason ->
     rejectMutation employee now error requestId reason =
       ([], thrown (Error "Rejection reason is required"))
     /\ execute_all (fst (rejectMutation employee now error requestId reason))
          table = table)
  /\ (wrote (fst (rejectMutation employee now error requestId reason)) <->
      trim reason <> []).
Proof.
  unfold rejectMutation. split.
  - intros Hblank. apply not_str_trim_iff in Hblank. rewrite Hblank.
    split; reflexivity.
  - destruct (not_str (trim reason)) eqn:E.
    + split.
      * intros [c []].
      * intros Hne. apply not_str_false_iff in Hne. congruence.
    + apply not_str_false_iff in E. split; [intros _; exact E |].
      intros _. destruct error; eexists; left; reflexivity.
Qed.

Lemma C9_blank_reason_witness :
  blank (lit "   ")
  /\ rejectMutation None (lit "2025-01-01T09:00:00.000Z") None (lit "7") (lit "   ")
     = ([], thrown (Error "Rejection reason is required")).
Proof.
  assert (Hblank : blank (lit "   ")) by (repeat constructor).
  split; [exact Hblank |].
  apply (proj1 (C9_blank_reason_refused None (lit "2025-01-01T09:00:00.000Z")
                  (lit "7") (lit "   ") None ∅)).
  exact Hblank.
Defined.

End LeaveFacts.

(* ===================================================================== *)
(** * The two task status unions                                          *)
(* ===================================================================== *)

Section TaskStatusFacts.
Import JS TaskStatus.
Local Open Scope string_scope.

(** C8: the status union of the [tasks] table type, which is also the one
    of the earlier version of the admin task screen, is
    {pending, in_progress, completed, overdue}; the one of the current admin
    task screen is {not_started, in_progress, completed, shelved, accepted,
    rejected}; and the two sets of values are not equal. *)
Theorem C8_task_status_unions_differ :
  values supabase_tasks_status =
    {[ lit "pending"; lit "in_progress"; lit "completed"; lit "overdue" ]}
  /\ values AdminTasks_earlier_Task_status = values supabase_tasks_status
  /\ values AdminTasks_Task_status =
    {[ lit "not_started"; lit "in_progress"; lit "completed"; lit "shelved";
       lit "accepted"; lit "rejected" ]}
  /\ values supabase_tasks_status <> values AdminTasks_Task_status.
Proof.
  split; [| split; [| split]].
  - unfold values, supabase_tasks_status. simpl. set_solver.
  - reflexivity.
  - unfold values, AdminTasks_Task_status. simpl. set_solver.
  - intros Heq.
    assert (Hin : lit "pending" ∈ values AdminTasks_Task_status).
    { rewrite <- Heq. unfold values. apply elem_of_list_to_set.
      unfold supabase_tasks_status. apply list_elem_of_In. now left. }
    unfold values in Hin. apply elem_of_list_to_set, list_elem_of_In in Hin.
    simpl in Hin.
    repeat (destruct Hin as [Hin | Hin]; [discriminate Hin |]). exact Hin.
Qed.

End TaskStatusFacts.

(* ===================================================================== *)
(** * Further properties of the office-proximity check                    *)
(* ===================================================================== *)

Section OfficeMoreFacts.
Import Office.
Local Open Scope R_scope.

Lemma asin_nonneg (x : R) : 0 <= x <= 1 -> 0 <= asin x <= PI / 2.
Proof.
  intros Hx. pose proof (asin_bound x) as [Hlo Hhi]. split; [| exact Hhi].
  destruct (Rle_dec 0 (asin x)) as [H | H]; [exact H | exfalso].
  assert (Hs : sin (asin x) < 0).
  { apply sin_lt_0_var; pose proof PI_RGT_0; lra. }
  rewrite sin_asin in Hs by lra. lra.
Qed.

(** The value of the formula is never negative. *)
Lemma calculateDistance_nonneg (lat1 lng1 lat2 lng2 : R) :
  0 <= calculateDistance lat1 lng1 lat2 lng2.
Proof.
  rewrite calculateDistance_haversine.
  unfold haversine_distance, mean_earth_radius.
  rewrite <- a_of_haversine_h.
  pose proof (a_of_bounds lat1 lng1 lat2 lng2) as [Ha0 Ha1].
  assert (Hs : 0 <= sqrt (a_of lat1 lng1 lat2 lng2) <= 1).
  { split; [apply sqrt_pos |]. rewrite <- sqrt_1. now apply sqrt_le_1_alt. }
  pose proof (asin_nonneg _ Hs). nra.
Qed.

(** X3: the rounded distance that is displayed agrees with the verdict:
    at most 100 when within range, at least 100 when out of range, and
    never negative. *)
Theorem displayed_distance_agrees (employeeLat employeeLng : R) :
  let r := isWithinOfficeRange employeeLat employeeLng in
  (isWithinRange r = true -> distance r <= 100)
  /\ (isWithinRange r = false -> 100 <= distance r)
  /\ 0 <= distance r.
Proof.
  unfold isWithinOfficeRange; simpl.
  set (d := calculateDistance _ _ _ _).
  assert (Hd : 0 <= d) by apply calculateDistance_nonneg.
  unfold Math_round. repeat split.
  - intros H. apply Rleb_true_iff in H.
    apply IZR_le. replace 100%Z with (Zfloor 100.5) by (apply Zfloor_eq; lra).
    apply Zfloor_le. lra.
  - intros H. apply Rleb_false_iff in H.
    apply IZR_le. apply Zfloor_lub. lra.
  - apply IZR_le. apply Zfloor_lub. lra.
Qed.

(** X4: between 100 m and 100.5 m the employee is out of range while the
    displayed distance is 100, the radius itself. *)
Theorem displayed_100_yet_refused (employeeLat employeeLng : R) :
  100 < calculateDistance employeeLat employeeLng 11.603722 76.209250 < 100.5 ->
  isWithinOfficeRange employeeLat employeeLng =
    {| isWithinRange := false; distance := 100 |}.
Proof.
  intros [Hlo Hhi]. unfold isWithinOfficeRange; simpl. f_equal.
  - apply Rleb_false_iff. simpl. lra.
  - apply (Math_round_near _ 100). lra.
Qed.

Lemma north_distance_100_25 :
  calculateDistance (11.603722 + 100.25 * 180 / (6371e3 * PI)) 76.209250
                    11.603722 76.209250 = 100.25.
Proof.
  pose proof PI_bounds as HPI.
  assert (Hd : 0 <= 100.25 * 180 / (6371e3 * PI) < 180).
  { split.
    - apply Rmult_le_pos; [lra|]. left. apply Rinv_0_lt_compat. nra.
    - apply Rmult_lt_reg_r with (6371e3 * PI); [nra|].
      unfold Rdiv. rewrite Rmult_assoc, Rinv_l by nra. nra. }
  rewrite calculateDistance_due_north by exact Hd.
  field. lra.
Qed.

Lemma displayed_100_yet_refused_witness :
  100 < calculateDistance (11.603722 + 100.25 * 180 / (6371e3 * PI)) 76.209250
          11.603722 76.209250 < 100.5
  /\ isWithinOfficeRange (11.603722 + 100.25 * 180 / (6371e3 * PI)) 76.209250 =
     {| isWithinRange := false; distance := 100 |}.
Proof.
  assert (H : 100 < calculateDistance (11.603722 + 100.25 * 180 / (6371e3 * PI))
                      76.209250 11.603722 76.209250 < 100.5)
    by (rewrite north_distance_100_25; lra).
  split; [exact H |]. apply displayed_100_yet_refused. exact H.
Defined.

(** X5: due north of the office (less than half a turn), as long as the
    distance the program computed is within 3 cm of the value of the
    formula, the employee is within range up to 0.000899 degrees of
    latitude and out of range from 0.0009 degrees on. *)
Theorem due_north_verdict_robust (d computed : R) :
  0 <= d < 180 ->
  OfficeComputed.within 0.03 computed
    (calculateDistance (11.603722 + d) 76.209250 11.603722 76.209250) ->
  let r := OfficeComputed.rangeCheck_of computed in
  (d <= 0.000899 -> isWithinRange r = true)
  /\ (0.0009 <= d -> isWithinRange r = false).
Proof.
  intros Hd Hw r. pose proof PI_bounds as HPI.
  rewrite calculateDistance_due_north in Hw by exact Hd.
  apply within_between in Hw.
  unfold r, OfficeComputed.rangeCheck_of. simpl. split.
  - intros Hsmall. apply Rleb_true_iff. nra.
  - intros Hbig. apply Rleb_false_iff. nra.
Qed.

Lemma due_north_verdict_robust_witness :
  0 <= 0.0005 < 180
  /\ OfficeComputed.within 0.03 55.6
       (calculateDistance (11.603722 + 0.0005) 76.209250 11.603722 76.209250)
  /\ isWithinRange (OfficeComputed.rangeCheck_of 55.6) = true.
Proof.
  assert (Hd : 0 <= 0.0005 < 180) by lra.
  assert (Hw : OfficeComputed.within 0.03 55.6
                 (calculateDistance (11.603722 + 0.0005) 76.209250
                    11.603722 76.209250)).
  { rewrite calculateDistance_due_north by exact Hd.
    apply between_within. pose proof PI_bounds. lra. }
  split; [exact Hd | split; [exact Hw |]].
  apply (due_north_verdict_robust 0.0005 55.6 Hd Hw). lra.
Defined.

End OfficeMoreFacts.

(* ===================================================================== *)
(** * Further properties of the screens                                   *)
(* ===================================================================== *)

Section MarkAttendanceFacts.
Import JS UI Attendance MarkAttendance.
Local Open Scope string_scope.

Lemma in_office_true (e : AuthContext.Employee) :
  AuthContext.location e = Some (lit "in-office") -> in_office (Some e) = true.
Proof. intros H. unfold in_office. rewrite H. reflexivity. Qed.

Lemma own_id_passes (e : AuthContext.Employee) (i : JSString) :
  trim i = AuthContext.employee_id e ->
  strict_ne (trim i) (AuthContext.employee_id e) = false.
Proof.
  intros H. unfold strict_ne, strict_eq. rewrite bool_decide_eq_true_2; auto.
Qed.

Lemma wrote_requests (events : list Event) :
  wrote events <-> requests events <> [].
Proof.
  unfold wrote. induction events as [| ev rest IH]; simpl.
  - split; [intros [c []] | congruence].
  - destruct ev as [t | c | l]; simpl.
    + rewrite <- IH. split; intros [c H]; exists c; [| now right].
      destruct H as [H | H]; [discriminate | exact H].
    + split; [discriminate | intros _; exists c; now left].
    + rewrite <- IH. split; intros [c H]; exists c; [| now right].
      destruct H as [H | H]; [discriminate | exact H].
Qed.

(** What [submit] sends. *)
Lemma submit_requests clock server method i loc st :
  requests (snd (submit clock server method i loc st)) =
  match todayAttendance st with
  | Some today =>
      if not_nullable (check_out_time today) then
        [Supabase.Update (lit "attendance")
           [(lit "check_out_time", Supabase.VString (localDateTime clock));
            (lit "check_out_location_lat", Supabase.VNumber (Office.lat loc));
            (lit "check_out_location_lng", Supabase.VNumber (Office.lng loc))]
           (lit "id") (id today)]
      else []
  | None =>
      [Supabase.Insert (lit "attendance")
         [(lit "employee_id", Supabase.VString i);
          (lit "date", Supabase.VString (localDate clock));
          (lit "check_in_time", Supabase.VString (localDateTime clock));
          (lit "location_lat", Supabase.VNumber (Office.lat loc));
          (lit "location_lng", Supabase.VNumber (Office.lng loc));
          (lit "status", Supabase.VString (lit "present"));
          (lit "method", Supabase.VString (Method_str method))]]
  end.
Proof.
  unfold submit, failed. simpl.
  destruct (todayAttendance st) as [today |]; simpl.
  - destruct (not_nullable _); [| reflexivity].
    destruct (updateError server); reflexivity.
  - destruct (insertError server); reflexivity.
Qed.

(** The handler either stops at a guard, sending nothing, or runs [submit]. *)
Lemma handle_cases employee clock server method st :
  let r := handleMarkAttendance employee clock server method st in
  (requests (snd r) = [] /\ exists m, fst r = setMessage (Some m) st /\ type m = error)
  \/ (exists loc, location st = Some loc /\
        trim (idToUse method st) <> [] /\
        r = submit clock server method (idToUse method st) loc st).
Proof.
  unfold handleMarkAttendance. simpl.
  destruct (not_str (trim (idToUse method st))) eqn:Hb; simpl.
  { left. split; [reflexivity | eexists; split; reflexivity]. }
  apply not_str_false_iff in Hb.
  destruct (match employee with Some e => _ | None => false end); simpl.
  { left. split; [reflexivity | eexists; split; reflexivity]. }
  destruct (location st) as [loc |]; simpl.
  2: { left. split; [reflexivity | eexists; split; reflexivity]. }
  destruct (in_office employee && _); simpl.
  - destruct (locationCheck st) as [check |]; simpl.
    + destruct (negb (Office.isWithinRange check)); simpl.
      * left. split; [reflexivity | eexists; split; reflexivity].
      * right. exists loc. auto.
    + left. split; [reflexivity | eexists; split; reflexivity].
  - right. exists loc. auto.
Qed.

Lemma submit_loading clock server method i loc st :
  loading (fst (submit clock server method i loc st)) = false.
Proof.
  unfold submit, failed. simpl.
  destruct (todayAttendance st) as [today |]; simpl.
  - destruct (not_nullable _); [| reflexivity].
    destruct (updateError server); reflexivity.
  - destruct (insertError server); reflexivity.
Qed.

Lemma checked_out_requests employee clock server method st today t :
  todayAttendance st = Some today ->
  check_out_time today = Some t -> t <> [] ->
  requests (snd (handleMarkAttendance employee clock server method st)) = [].
Proof.
  intros Htoday Hout Ht.
  destruct (handle_cases employee clock server method st)
    as [[Hnone _] | [loc [_ [_ Hsub]]]]; [exact Hnone |].
  rewrite Hsub, submit_requests, Htoday, Hout. simpl.
  apply not_str_false_iff in Ht. now rewrite Ht.
Qed.

(** X7: once today's row carries a check-out time the handler sends nothing,
    and the manual button is disabled; this is the state
    [checkTodayAttendance] leaves when the query finds such a row. *)
Theorem checked_out_sends_nothing (employee : option AuthContext.Employee)
    (clock : Clock) (server : Server) (method : Method) (st : State)
    (today : AttendanceRow) (t : JSString)
    (error : option Supabase.PostgrestError) :
  check_out_time today = Some t -> t <> [] -> employeeId st <> [] ->
  let st' := fst (checkTodayAttendance (Some today) error false st) in
  todayAttendance st' = Some today
  /\ requests (snd (handleMarkAttendance employee clock server method st')) = []
  /\ manualButtonDisabled employee st' = true.
Proof.
  intros Hout Ht Hid st'.
  assert (Htoday : todayAttendance st' = Some today).
  { unfold st', checkTodayAttendance. apply not_str_false_iff in Hid.
    now rewrite Hid. }
  split; [exact Htoday | split].
  - now apply (checked_out_requests _ _ _ _ _ today t).
  - unfold manualButtonDisabled. rewrite Htoday, Hout. simpl.
    apply not_str_false_iff in Ht. rewrite Ht. simpl.
    now rewrite !orb_true_r.
Qed.

Lemma handler_requests (employee : option AuthContext.Employee)
    (clock : Clock) (server : Server) (method : Method) (st : State) :
  requests (snd (handleMarkAttendance employee clock server method st)) = []
  \/ exists loc, location st = Some loc /\
       trim (idToUse method st) <> [] /\
       requests (snd (handleMarkAttendance employee clock server method st)) =
       match todayAttendance st with
       | Some today =>
           [Supabase.Update (lit "attendance")
              [(lit "check_out_time", Supabase.VString (localDateTime clock));
               (lit "check_out_location_lat", Supabase.VNumber (Office.lat loc));
               (lit "check_out_location_lng", Supabase.VNumber (Office.lng loc))]
              (lit "id") (id today)]
       | None =>
           [Supabase.Insert (lit "attendance")
              [(lit "employee_id", Supabase.VString (idToUse method st));
               (lit "date", Supabase.VString (localDate clock));
               (lit "check_in_time", Supabase.VString (localDateTime clock));
               (lit "location_lat", Supabase.VNumber (Office.lat loc));
               (lit "location_lng", Supabase.VNumber (Office.lng loc));
               (lit "status", Supabase.VString (lit "present"));
               (lit "method", Supabase.VString (Method_str method))]]
       end.
Proof.
  destruct (handle_cases employee clock server method st)
    as [[Hnone _] | [loc [Hloc [Hid Hsub]]]]; [now left |].
  rewrite Hsub, submit_requests.
  destruct (todayAttendance st) as [today |].
  - destruct (not_nullable _); [| now left].
    right. exists loc. auto.
  - right. exists loc. auto.
Qed.

(** X8: a call of the handler sends at most one request; with no row for
    today it can only be an insert into [attendance] under the submitted
    identifier, with a row for today only an update of [attendance]
    filtered on that row's [id]. *)
Theorem at_most_one_request (employee : option AuthContext.Employee)
    (clock : Clock) (server : Server) (method : Method) (st : State) :
  let sent := requests (snd (handleMarkAttendance employee clock server method st)) in
  (length sent <= 1)%nat
  /\ forall c, In c sent ->
       match todayAttendance st with
       | Some today =>
           exists values,
             c = Supabase.Update (lit "attendance") values (lit "id") (id today)
       | None =>
           exists values,
             c = Supabase.Insert (lit "attendance") values /\
             In (lit "employee_id", Supabase.VString (idToUse method st)) values
       end.
Proof.
  intros sent. unfold sent.
  destruct (handler_requests employee clock server method st)
    as [-> | [loc [_ [_ ->]]]].
  - split; [simpl; lia | intros c []].
  - destruct (todayAttendance st) as [today |].
    + split; [simpl; lia |]. intros c [<- | []]. eexists. reflexivity.
    + split; [simpl; lia |]. intros c [<- | []]. eexists.
      split; [reflexivity | now left].
Qed.

(** X9: the handler never leaves the loading flag set. *)
Theorem loading_is_released (employee : option AuthContext.Employee)
    (clock : Clock) (server : Server) (method : Method) (st : State) :
  let r := handleMarkAttendance employee clock server method st in
  (loading st = false -> loading (fst r) = false)
  /\ (wrote (snd r) -> loading (fst r) = false).
Proof.
  intros r. unfold r.
  destruct (handle_cases employee clock server method st)
    as [[Hnone [m [Hst _]]] | [loc [_ [_ Hsub]]]].
  - split.
    + intros H. now rewrite Hst.
    + intros H. apply wrote_requests in H. contradiction.
  - rewrite Hsub. split; intros _; apply submit_loading.
Qed.

Lemma submit_outcome clock server method i loc st :
  let r := submit clock server method i loc st in
  (exists m, message (fst r) = Some m /\
     (type m = success ->
      requests (snd r) <> [] /\
      match todayAttendance st with
      | Some _ => updateError server = None
      | None => insertError server = None
      end))
  /\ (updateError server <> None -> insertError server <> None ->
      todayAttendance (fst r) = todayAttendance st /\
      qrScanned (fst r) = qrScanned st).
Proof.
  unfold submit, failed. simpl.
  destruct (todayAttendance st) as [today |] eqn:Htoday; simpl.
  - destruct (not_nullable _); simpl.
    + destruct (updateError server); simpl.
      * split; [eexists; split; [reflexivity | discriminate] |].
        intros _ _. auto.
      * split; [eexists; split; [reflexivity | intros _; split; congruence] |].
        intros H; contradiction.
    + split; [eexists; split; [reflexivity | discriminate] |]. auto.
  - destruct (insertError server); simpl.
    + split; [eexists; split; [reflexivity | discriminate] |]. auto.
    + split; [eexists; split; [reflexivity | intros _; split; congruence] |].
      intros _ H; contradiction.
Qed.

(** X10: a success message is shown only after a request that the backend
    accepted; when the backend refuses, the local copy of today's row and
    the scan flag are left as they were and the message is an error. *)
Theorem success_only_when_accepted (employee : option AuthContext.Employee)
    (clock : Clock) (server : Server) (method : Method) (st : State) :
  let r := handleMarkAttendance employee clock server method st in
  (exists m, message (fst r) = Some m /\
     (type m = success ->
      wrote (snd r) /\
      match todayAttendance st with
      | Some _ => updateError server = None
      | None => insertError server = None
      end))
  /\ (updateError server <> None -> insertError server <> None ->
      todayAttendance (fst r) = todayAttendance st /\
      qrScanned (fst r) = qrScanned st).
Proof.
  intros r. unfold r.
  destruct (handle_cases employee clock server method st)
    as [[Hnone [m [Hst Herr]]] | [loc [_ [_ Hsub]]]].
  - rewrite Hst. simpl. split; [| auto].
    exists m. split; [reflexivity | congruence].
  - rewrite Hsub.
    destruct (submit_outcome clock server method (idToUse method st) loc st)
      as [[m [Hm Hs]] Hkeep].
    split; [| exact Hkeep].
    exists m. split; [exact Hm |]. intros Hsucc.
    destruct (Hs Hsucc) as [Hreq Hok]. split; [| exact Hok].
    now apply wrote_requests.
Qed.

Lemma success_only_when_accepted_witness :
  let server := {| updateError := Some {| Supabase.code := lit "23503" |};
                   data := None;
                   insertError := Some {| Supabase.code := lit "23503" |} |} in
  let clock := {| localDate := lit "2025-01-01";
                  localDateTime := lit "2025-01-01T09:00:00.000Z" |} in
  let st := setLocation (Some {| Office.lat := 0; Office.lng := 0 |})
              (setEmployeeId (lit "E1") initial) in
  todayAttendance (fst (handleMarkAttendance None clock server qr st)) = None.
Proof.
  intros server clock st.
  apply (success_only_when_accepted None clock server qr st); discriminate.
Defined.

Lemma checked_out_sends_nothing_witness :
  let today := {| id := lit "42"; employee_id := lit "E1";
                  date := lit "2025-01-01";
                  check_in_time := Some (lit "2025-01-01T09:00:00.000Z");
                  check_out_time := Some (lit "2025-01-01T17:00:00.000Z");
                  location_lat := None; location_lng := None;
                  status := lit "present"; method := lit "qr";
                  created_at := lit "2025-01-01T09:00:00.000Z" |} in
  let st := setEmployeeId (lit "E1") initial in
  let clock := {| localDate := lit "2025-01-01";
                  localDateTime := lit "2025-01-01T18:00:00.000Z" |} in
  let server := {| updateError := None; data := None; insertError := None |} in
  requests
    (snd (handleMarkAttendance None clock server qr
            (fst (checkTodayAttendance (Some today) None false st)))) = [].
Proof.
  intros today st clock server.
  apply (checked_out_sends_nothing None clock server qr st today
           (lit "2025-01-01T17:00:00.000Z") None); [reflexivity | | ];
    discriminate.
Defined.

(** X11: what a call leaves for the next one. After a check-out that the
    backend accepted, any later call sends nothing; after a check-in that
    the backend accepted and answered with the new row, a later call never
    sends an insert again. *)
Theorem later_calls_after_success
    (employee employee' : option AuthContext.Employee)
    (clock clock' : Clock) (server server' : Server)
    (method method' : Method) (st : State) :
  localDateTime clock <> [] ->
  let r := handleMarkAttendance employee clock server method st in
  let sent' :=
    requests (snd (handleMarkAttendance employee' clock' server' method' (fst r))) in
  wrote (snd r) ->
  match todayAttendance st with
  | Some _ => updateError server = None -> sent' = []
  | None =>
      insertError server = None ->
      forall row, data server = Some row ->
      forall table values, ~ In (Supabase.Insert table values) sent'
  end.
Proof.
  intros Hnow r sent' Hwrote. apply wrote_requests in Hwrote.
  destruct (handle_cases employee clock server method st)
    as [[Hnone _] | [loc [_ [_ Hsub]]]]; [contradiction |].
  fold r in Hsub. unfold sent'. clear sent'.
  rewrite Hsub in Hwrote. rewrite submit_requests in Hwrote.
  destruct (todayAttendance st) as [today |] eqn:Htoday.
  - intros Hok. destruct (not_nullable (check_out_time today)) eqn:Hnn;
      [| contradiction].
    apply (checked_out_requests _ _ _ _ _
             (with_check_out_time (localDateTime clock) today)
             (localDateTime clock)); [| reflexivity | exact Hnow].
    rewrite Hsub. unfold submit. simpl. rewrite Htoday, Hnn, Hok. reflexivity.
  - intros Hok row Hrow table values Hin.
    assert (Hst : todayAttendance (fst r) = Some row).
    { rewrite Hsub. unfold submit. simpl. rewrite Htoday, Hok. simpl.
      exact Hrow. }
    destruct (handler_requests employee' clock' server' method' (fst r))
      as [Hnil | [loc' [_ [_ Hsent]]]].
    + rewrite Hnil in Hin. contradiction.
    + rewrite Hsent, Hst in Hin. destruct Hin as [Hin | []]. discriminate.
Qed.

Lemma later_calls_after_success_witness :
  let today := {| id := lit "42"; employee_id := lit "E1";
                  date := lit "2025-01-01";
                  check_in_time := Some (lit "2025-01-01T09:00:00.000Z");
                  check_out_time := None;
                  location_lat := None; location_lng := None;
                  status := lit "present"; method := lit "qr";
                  created_at := lit "2025-01-01T09:00:00.000Z" |} in
  let st := setTodayAttendance (Some today)
              (setLocation (Some {| Office.lat := 0; Office.lng := 0 |})
                 (setEmployeeId (lit "E1") initial)) in
  let clock := {| localDate := lit "2025-01-01";
                  localDateTime := lit "2025-01-01T17:00:00.000Z" |} in
  let server := {| updateError := None; data := None; insertError := None |} in
  requests
    (snd (handleMarkAttendance None clock server qr
            (fst (handleMarkAttendance None clock server qr st)))) = [].
Proof.
  intros today st clock server.
  apply (later_calls_after_success None None clock clock server server qr qr st).
  - discriminate.
  - eexists. left. reflexivity.
  - reflexivity.
Defined.

Lemma handle_in_office (e : AuthContext.Employee) clock server method st
    (loc : Office.Coordinates) (check : Office.RangeCheck) :
  in_office (Some e) = true ->
  trim (idToUse method st) = AuthContext.employee_id e ->
  trim (idToUse method st) <> [] ->
  location st = Some loc ->
  locationCheck st = Some check ->
  handleMarkAttendance (Some e) clock server method st =
  if negb (Office.isWithinRange check)
  then too_far (or_zero (Office.distance check)) st
  else submit clock server method (idToUse method st) loc st.
Proof.
  intros Hin Hown Hid Hloc Hcheck. unfold handleMarkAttendance.
  apply not_str_false_iff in Hid.
  rewrite Hin, Hid, (own_id_passes e _ Hown), Hloc, Hcheck. reflexivity.
Qed.

(** Over the reals the two position callbacks are one. *)
Lemma onPosition_computed (employee : option AuthContext.Employee)
    (coords : Office.Coordinates) (st : State) :
  onPosition employee coords st =
  onPositionComputed employee coords
    (Office.calculateDistance (Office.lat coords) (Office.lng coords)
       (Office.lat (Office.coordinates Office.OFFICE_CONFIG))
       (Office.lng (Office.coordinates Office.OFFICE_CONFIG))) st.
Proof. reflexivity. Qed.

(** X6: geofencing from position to request. For an in-office employee who
    submits the own identifier, in the state the position callback leaves,
    with [computed] the distance the program computed: when it is at most
    100 m the handler goes on to [submit], which sends a request unless
    today's row is already checked out; when it is more than 100 m the
    handler refuses, sends nothing, and reports the computed distance
    rounded to the metre. *)
Theorem in_office_geofence_computed (e : AuthContext.Employee)
    (la ln computed : R)
    (clock : Clock) (server : Server) (method : Method) (st : State) :
  AuthContext.location e = Some (lit "in-office") ->
  trim (idToUse method st) = AuthContext.employee_id e ->
  trim (idToUse method st) <> [] ->
  let coords := {| Office.lat := la; Office.lng := ln |} in
  let st' := onPositionComputed (Some e) coords computed st in
  let r := handleMarkAttendance (Some e) clock server method st' in
  ((computed <= 100)%R ->
     r = submit clock server method (idToUse method st) coords st'
     /\ ((forall today, todayAttendance st = Some today ->
                        not_nullable (check_out_time today) = true) ->
         wrote (snd r)))
  /\ ((100 < computed)%R ->
     r = too_far (or_zero (Office.Math_round computed)) st'
     /\ requests (snd r) = []).
Proof.
  intros Hoff Hown Hid coords st' r.
  pose proof (in_office_true e Hoff) as Hin.
  set (check := OfficeComputed.rangeCheck_of computed).
  assert (Hst' : st' = setLocationCheck (Some check)
                         (setLocation (Some coords) st)).
  { unfold st', onPositionComputed. rewrite Hin. reflexivity. }
  assert (Hidx : idToUse method st' = idToUse method st)
    by (rewrite Hst'; now destruct method).
  assert (Htoday : todayAttendance st' = todayAttendance st)
    by (rewrite Hst'; reflexivity).
  assert (Hr : r = if negb (Office.isWithinRange check)
                   then too_far (or_zero (Office.distance check)) st'
                   else submit clock server method (idToUse method st) coords st').
  { unfold r. rewrite <- Hidx in Hown, Hid |- *.
    apply (handle_in_office e clock server method st' coords check Hin Hown Hid);
      rewrite Hst'; reflexivity. }
  split.
  - intros Hd.
    assert (Hwithin : Office.isWithinRange check = true)
      by (apply Rleb_true_iff; simpl; lra).
    rewrite Hwithin in Hr. simpl in Hr. split; [exact Hr |].
    intros Hopen. apply wrote_requests. rewrite Hr, submit_requests, Htoday.
    destruct (todayAttendance st) as [today |]; [| discriminate].
    rewrite (Hopen today eq_refl). discriminate.
  - intros Hd.
    assert (Hout : Office.isWithinRange check = false)
      by (apply Rleb_false_iff; simpl; lra).
    rewrite Hout in Hr. simpl in Hr. rewrite Hr. split; reflexivity.
Qed.

Lemma in_office_geofence_computed_witness :
  let e := {| AuthContext.employee_id := lit "E1";
              AuthContext.location := Some (lit "in-office") |} in
  let st := setEmployeeId (lit "E1") initial in
  let clock := {| localDate := lit "2025-01-01";
                  localDateTime := lit "2025-01-01T09:00:00.000Z" |} in
  let server := {| updateError := None; data := None; insertError := None |} in
  let here := {| Office.lat := 11.603722 + 0.0005; Office.lng := 76.209250 |} in
  let there := {| Office.lat := 11.603722 + 0.01; Office.lng := 76.209250 |} in
  wrote
    (snd (handleMarkAttendance (Some e) clock server qr
            (onPositionComputed (Some e) here 55.6 st)))
  /\ requests
       (snd (handleMarkAttendance (Some e) clock server qr
               (onPositionComputed (Some e) there 1111.9492664455636 st)))
     = [].
Proof.
  intros e st clock server here there. split.
  - apply (in_office_geofence_computed e (11.603722 + 0.0005) 76.209250 55.6
             clock server qr st);
      [reflexivity | reflexivity | discriminate | lra |].
    intros today Htoday. discriminate Htoday.
  - apply (in_office_geofence_computed e (11.603722 + 0.01) 76.209250
             1111.9492664455636 clock server qr st);
      [reflexivity | reflexivity | discriminate | lra].
Defined.

(** X12: when the manual button is enabled and the typed identifier, trimmed,
    is the employee's own, a click sends a request, except for an in-office
    employee whose range check is still missing, who is told to be 0 m
    away. *)
Theorem enabled_button_submits (e : AuthContext.Employee)
    (clock : Clock) (server : Server) (st : State) :
  manualButtonDisabled (Some e) st = false ->
  trim (manualEmployeeId st) = AuthContext.employee_id e ->
  let r := handleMarkAttendance (Some e) clock server manual st in
  wrote (snd r)
  \/ (in_office (Some e) = true /\ locationCheck st = None /\ r = too_far 0 st).
Proof.
  intros Hen Hown r. unfold manualButtonDisabled in Hen.
  repeat (apply orb_false_iff in Hen as [Hen ?]).
  destruct (location st) as [loc |] eqn:Hloc; [| discriminate].
  assert (Hid : not_str (trim (idToUse manual st)) = false) by assumption.
  change (manualEmployeeId st) with (idToUse manual st) in Hown.
  assert (Hr : r = if in_office (Some e)
                      && Office.enforceLocationCheck Office.OFFICE_CONFIG
                   then match locationCheck st with
                        | None => too_far 0 st
                        | Some check =>
                            if negb (Office.isWithinRange check)
                            then too_far (or_zero (Office.distance check)) st
                            else submit clock server manual (idToUse manual st) loc st
                        end
                   else submit clock server manual (idToUse manual st) loc st).
  { unfold r, handleMarkAttendance.
    rewrite Hid, (own_id_passes e _ Hown), Hloc. reflexivity. }
  assert (Hsub : wrote (snd (submit clock server manual (idToUse manual st) loc st))).
  { apply wrote_requests. rewrite submit_requests.
    destruct (todayAttendance st) as [today |]; [| discriminate].
    match goal with H : negb _ = false |- _ => apply negb_false_iff in H; rewrite H end.
    discriminate. }
  change (Office.enforceLocationCheck Office.OFFICE_CONFIG) with true in *.
  rewrite andb_true_r in *.
  destruct (in_office (Some e)) eqn:Hin; [| left; now rewrite Hr].
  destruct (locationCheck st) as [check |] eqn:Hcheck.
  - match goal with H : true && _ = false |- _ => simpl in H; rewrite H in Hr end.
    left. now rewrite Hr.
  - right. auto.
Qed.

Lemma enabled_button_submits_witness :
  let e := {| AuthContext.employee_id := lit "E1";
              AuthContext.location := Some (lit "work-from-home") |} in
  let st := onPosition (Some e) {| Office.lat := 0; Office.lng := 0 |}
              (setCheckingAttendance false
                 (setManualEmployeeId (lit "E1")
                    (setEmployeeId (lit "E1") initial))) in
  let clock := {| localDate := lit "2025-01-01";
                  localDateTime := lit "2025-01-01T09:00:00.000Z" |} in
  let server := {| updateError := None; data := None; insertError := None |} in
  manualButtonDisabled (Some e) st = false
  /\ wrote (snd (handleMarkAttendance (Some e) clock server manual st)).
Proof.
  intros e st clock server. split; [reflexivity |].
  destruct (enabled_button_submits e clock server st) as [H | [H _]];
    [reflexivity | reflexivity | exact H | discriminate H].
Defined.

(** X13: a scan schedules the marking of attendance exactly when the scanned
    text, trimmed, is the employee's own identifier. A foreign code only
    closes the scanner and shows "Invalid QR Code"; an accepted one is
    stored as scanned and passes the identifier guards of the handler. *)
Theorem scan_accepts_own_code_only (e : AuthContext.Employee)
    (scannedData : JSString) (st : State) :
  let r := handleQRScan (Some e) scannedData st in
  (scan_scheduled r = true <-> trim scannedData = AuthContext.employee_id e)
  /\ (trim scannedData <> AuthContext.employee_id e ->
      scan_state r = setShowScanner false st /\
      Screen.title (scan_toast r) = "Invalid QR Code")
  /\ (trim scannedData = AuthContext.employee_id e ->
      employeeId (scan_state r) = scannedData /\
      qrScanned (scan_state r) = true /\
      showScanner (scan_state r) = false /\
      (AuthContext.employee_id e <> [] ->
       forall clock server t,
         In (toast t)
            (snd (handleMarkAttendance (Some e) clock server qr (scan_state r))) ->
         title t <> "Access Denied" /\
         description t <> [Str "Employee ID is required"])).
Proof.
  intros r. unfold r, handleQRScan.
  destruct (strict_ne (trim scannedData) (AuthContext.employee_id e)) eqn:E.
  - apply strict_ne_true_iff in E. simpl.
    split; [split; [discriminate | contradiction] |].
    split; [auto | contradiction].
  - assert (Hown : trim scannedData = AuthContext.employee_id e).
    { destruct (decide (trim scannedData = AuthContext.employee_id e)) as [H | H];
        [exact H |]. apply strict_ne_true_iff in H. congruence. }
    simpl. split; [split; auto |]. split; [contradiction |].
    intros _. split; [reflexivity | split; [reflexivity | split; [reflexivity |]]].
    intros Hne clock server t. unfold handleMarkAttendance. simpl.
    rewrite <- Hown in Hne. apply not_str_false_iff in Hne. rewrite Hne, E.
    unfold submit, failed, too_far. simpl.
    repeat match goal with
           | |- context [match ?x with _ => _ end] => destruct x; simpl
           end.
    all: intros H;
         repeat (destruct H as [H | H];
                 [inversion H; subst; simpl; split; discriminate |]);
         try contradiction.
Qed.

End MarkAttendanceFacts.

Section CountFacts.
Import JS.

Lemma strict_eq_true_iff (a b : JSString) : strict_eq a b = true <-> a = b.
Proof. unfold strict_eq. apply bool_decide_eq_true. Qed.

(** One record is counted under at most one of several distinct values. *)
Lemma tally_one (k : JSString) (us : list JSString) :
  NoDup us ->
  foldr Nat.add 0%nat
    (List.map (fun u => if strict_eq k u then 1%nat else 0%nat) us)
  = if bool_decide (k ∈ us) then 1%nat else 0%nat.
Proof.
  induction us as [| u us IH]; intros Hnd; [reflexivity |].
  apply NoDup_cons in Hnd as [Hu Hnd]. simpl. rewrite (IH Hnd).
  unfold strict_eq. destruct (decide (k = u)) as [-> | Hne].
  - rewrite bool_decide_eq_true_2 by reflexivity.
    rewrite (bool_decide_eq_false_2 (u ∈ us)) by exact Hu.
    rewrite bool_decide_eq_true_2 by (now left). reflexivity.
  - rewrite bool_decide_eq_false_2 by exact Hne. simpl.
    destruct (decide (k ∈ us)) as [Hin | Hout].
    + rewrite !bool_decide_eq_true_2; auto. now right.
    + rewrite !bool_decide_eq_false_2; auto.
      intros H. apply elem_of_cons in H as [? | ?]; contradiction.
Qed.

Lemma tally {A : Type} (key : A -> JSString) (us : list JSString) (l : list A) :
  NoDup us ->
  foldr Nat.add 0%nat
    (List.map (fun u => length (List.filter (fun r => strict_eq (key r) u) l)) us)
  = length (List.filter (fun r => bool_decide (key r ∈ us)) l).
Proof.
  intros Hnd. induction l as [| r l IH].
  - simpl. induction us; simpl; auto.
    rewrite IHus; [reflexivity |]. now apply NoDup_cons in Hnd as [_ ?].
  - simpl.
    assert (E : forall us',
      foldr Nat.add 0%nat
        (List.map
           (fun u => length (if strict_eq (key r) u
                             then r :: List.filter (fun r0 => strict_eq (key r0) u) l
                             else List.filter (fun r0 => strict_eq (key r0) u) l)) us')
      = (foldr Nat.add 0%nat
           (List.map (fun u => if strict_eq (key r) u then 1%nat else 0%nat) us')
         + foldr Nat.add 0%nat
             (List.map (fun u => length (List.filter (fun r0 => strict_eq (key r0) u) l)) us'))%nat).
    { induction us' as [| u us' IHu]; [reflexivity |]. simpl. rewrite IHu.
      destruct (strict_eq (key r) u); simpl; lia. }
    rewrite E, IH, (tally_one (key r) us Hnd).
    destruct (bool_decide (key r ∈ us)); simpl; lia.
Qed.

Lemma filter_all {A : Type} (f : A -> bool) (l : list A) :
  Forall (fun x => f x = true) l -> List.filter f l = l.
Proof.
  induction 1 as [| x l Hx _ IH]; simpl; [reflexivity |]. now rewrite Hx, IH.
Qed.

End CountFacts.

Section AdminAttendanceFacts.
Import JS JSLib AdminAttendance.
Local Open Scope string_scope.
Local Open Scope list_scope.

Lemma includes_empty (s : JSString) : includes s [] = true.
Proof. destruct s; reflexivity. Qed.

(** X14: the four counters of the admin attendance screen count every record
    whose status is one of the four declared values exactly once; when all
    records have such a status the counters add up to the number of
    records. *)
Theorem attendanceStats_total (attendanceRecords : list AttendanceRecord) :
  let s := attendanceStats attendanceRecords in
  (present s + absent s + late s + onLeave s)%nat =
    length (List.filter (fun r => bool_decide (status r ∈ status_union))
              attendanceRecords)
  /\ (Forall (fun r => status r ∈ status_union) attendanceRecords ->
      (present s + absent s + late s + onLeave s)%nat = length attendanceRecords).
Proof.
  intros s.
  assert (Hnd : NoDup status_union).
  { apply (bool_decide_unpack _). vm_compute. exact I. }
  pose proof (tally status status_union attendanceRecords Hnd) as H.
  assert (Hsum : (present s + absent s + late s + onLeave s)%nat =
                 length (List.filter (fun r => bool_decide (status r ∈ status_union))
                           attendanceRecords)).
  { rewrite <- H. unfold s, attendanceStats, status_union. simpl. lia. }
  split; [exact Hsum |].
  intros Hall. rewrite Hsum. f_equal. apply filter_all.
  eapply Forall_impl; [exact Hall |]. intros r Hr. simpl.
  now apply bool_decide_eq_true_2.
Qed.

Lemma attendanceStats_total_witness :
  let r := {| id := lit "1"; employee_id := lit "E1"; employee_name := None;
              date := lit "2025-01-01"; check_in_time := None;
              check_out_time := None; status := lit "late";
              location_lat := None; location_lng := None;
              check_out_location_lat := None; check_out_location_lng := None;
              method := None |} in
  let s := attendanceStats [r; r] in
  (present s + absent s + late s + onLeave s)%nat = 2%nat.
Proof.
  intros r s.
  apply (attendanceStats_total [r; r]).
  unfold status_union. repeat constructor.
Defined.

(** X15: the filtered list of the admin attendance screen never has more
    records than the full list; with a status filter other than "all" every
    record shown has that status; and with "all" and a search text that
    lower-cases to the empty string every record is shown. *)
Theorem filteredRecords_sound (toLowerCase : JSString -> JSString)
    (searchQuery statusFilter : JSString)
    (attendanceRecords : list AttendanceRecord) :
  let shown := filteredRecords toLowerCase searchQuery statusFilter attendanceRecords in
  (length shown <= length attendanceRecords)%nat
  /\ (forall r, In r shown ->
        In r attendanceRecords /\
        (statusFilter <> lit "all" -> status r = statusFilter))
  /\ (toLowerCase searchQuery = [] -> statusFilter = lit "all" ->
      shown = attendanceRecords).
Proof.
  intros shown. unfold shown, filteredRecords. split; [| split].
  - apply List.filter_length_le.
  - intros r Hr. apply List.filter_In in Hr as [Hin Hr]. split; [exact Hin |].
    intros Hne. apply andb_true_iff in Hr as [_ Hr].
    apply orb_true_iff in Hr as [Hr | Hr]; apply strict_eq_true_iff in Hr;
      congruence.
  - intros Hq ->. apply filter_all. apply Forall_forall. intros r _.
    rewrite Hq, includes_empty. reflexivity.
Qed.

Lemma filteredRecords_sound_witness :
  let r := {| id := lit "1"; employee_id := lit "E1"; employee_name := None;
              date := lit "2025-01-01"; check_in_time := None;
              check_out_time := None; status := lit "late";
              location_lat := None; location_lng := None;
              check_out_location_lat := None; check_out_location_lng := None;
              method := None |} in
  filteredRecords (fun s => s) [] (lit "all") [r] = [r].
Proof.
  intros r.
  apply (filteredRecords_sound (fun s => s) [] (lit "all") [r]); reflexivity.
Defined.

Lemma join_empty_concat (pieces : list JSString) : join [] pieces = concat pieces.
Proof.
  induction pieces as [| p ps IH]; [reflexivity |].
  destruct ps as [| q ps]; simpl in *; [now rewrite app_nil_r |].
  now rewrite IH.
Qed.

Lemma split_cons_shape (sep : N) (s : JSString) :
  exists piece pieces, split sep s = piece :: pieces.
Proof.
  induction s as [| c s [p [ps IH]]]; simpl; [eauto |].
  destruct (c =? sep)%N; [eauto |]. rewrite IH. eauto.
Qed.

Lemma split_pieces_free (sep : N) (s : JSString) :
  Forall (fun piece => ~ In sep piece) (split sep s).
Proof.
  induction s as [| c s IH]; simpl; [repeat constructor; auto |].
  destruct (c =? sep)%N eqn:E; [constructor; auto |].
  destruct (split sep s) as [| p ps]; [repeat constructor |].
  - intros [H | []]. apply N.eqb_neq in E. congruence.
  - apply Forall_cons_1 in IH as [Hp Hps]. constructor; [| exact Hps].
    intros [H | H]; [apply N.eqb_neq in E; congruence | contradiction].
Qed.

Lemma initials_sublists (sep : N) (s : JSString) :
  match split sep s with
  | piece :: pieces =>
      concat (List.map first_unit pieces) `sublist_of` s /\
      concat (List.map first_unit (piece :: pieces)) `sublist_of` s
  | [] => True
  end.
Proof.
  induction s as [| c s IH]; simpl; [split; constructor |].
  destruct (c =? sep)%N.
  - destruct (split sep s) as [| p ps]; simpl in *.
    + split; apply sublist_nil_l.
    + destruct IH as [_ IH]. split; apply sublist_cons; exact IH.
  - destruct (split sep s) as [| p ps]; simpl in *.
    + split; [apply sublist_nil_l | apply sublist_skip, sublist_nil_l].
    + destruct IH as [IH _]. split; [now apply sublist_cons |].
      now apply sublist_skip.
Qed.

Lemma split_word (sep : N) (w : JSString) :
  ~ In sep w -> split sep w = [w].
Proof.
  induction w as [| c w IH]; intros H; [reflexivity |]. simpl.
  destruct (c =? sep)%N eqn:E.
  - apply N.eqb_eq in E. exfalso. apply H. now left.
  - rewrite IH; [reflexivity |]. intros Hin. apply H. now right.
Qed.

Lemma split_word_sep (sep : N) (w s : JSString) :
  ~ In sep w -> split sep (w ++ sep :: s) = w :: split sep s.
Proof.
  induction w as [| c w IH]; intros H; simpl.
  - now rewrite N.eqb_refl.
  - destruct (c =? sep)%N eqn:E.
    + apply N.eqb_eq in E. exfalso. apply H. now left.
    + rewrite IH; [reflexivity |]. intros Hin. apply H. now right.
Qed.

Lemma split_join (sep : N) (ws : list JSString) :
  ws <> [] -> Forall (fun w => ~ In sep w) ws ->
  split sep (join [sep] ws) = ws.
Proof.
  induction ws as [| w ws IH]; intros Hne Hall; [contradiction |].
  apply Forall_cons_1 in Hall as [Hw Hall].
  destruct ws as [| w' ws]; [now apply split_word |].
  change (join [sep] (w :: w' :: ws)) with (w ++ sep :: join [sep] (w' :: ws)).
  rewrite split_word_sep by exact Hw. f_equal. now apply IH.
Qed.

(** X16: the initials of the avatar never contain a space, are taken from
    the name in order, and for a name made of words separated by single
    spaces they are the first code units of the words. *)
Theorem initials_of_name (employee_name : option JSString) :
  ~ In 32%N (initials employee_name)
  /\ initials employee_name `sublist_of` or_empty employee_name
  /\ (forall ws : list JSString,
        ws <> [] ->
        Forall (fun w => w <> [] /\ ~ In 32%N w) ws ->
        initials (Some (join [32%N] ws)) = List.map (fun w => hd 0%N w) ws).
Proof.
  unfold initials. rewrite join_empty_concat. split; [| split].
  - intros Hin. apply in_concat in Hin as [p [Hp Hin]].
    apply in_map_iff in Hp as [n [<- Hn]].
    pose proof (split_pieces_free 32 (or_empty employee_name)) as Hfree.
    rewrite List.Forall_forall in Hfree. specialize (Hfree n Hn).
    destruct n as [| c n]; simpl in Hin; [contradiction |].
    destruct Hin as [-> | []]. apply Hfree. now left.
  - pose proof (initials_sublists 32 (or_empty employee_name)) as H.
    destruct (split_cons_shape 32 (or_empty employee_name)) as [p [ps E]].
    rewrite E in H |- *. apply H.
  - intros ws Hne Hall. rewrite join_empty_concat. simpl or_empty.
    rewrite split_join; [| exact Hne |].
    + clear Hne. induction ws as [| w ws IH]; [reflexivity |].
      apply Forall_cons_1 in Hall as [[Hw _] Hall]. simpl.
      rewrite (IH Hall). destruct w; [contradiction | reflexivity].
    + eapply Forall_impl; [exact Hall |]. now intros w [_ ?].
Qed.

Lemma initials_of_name_witness :
  initials (Some (join [32%N] [lit "Asha"; lit "Nair"])) = lit "AN".
Proof.
  apply (proj2 (proj2 (initials_of_name None)) [lit "Asha"; lit "Nair"]).
  - discriminate.
  - repeat constructor; try discriminate;
      (intros H; repeat (destruct H as [H | H]; [discriminate H |]); exact H).
Defined.

End AdminAttendanceFacts.

Section StatsFacts.
Import JS UI.
Local Open Scope string_scope.
Local Open Scope list_scope.

(** X21: the three counters of the leave screen count every request whose
    status is pending, approved or rejected exactly once; when all requests
    have such a status the counters add up to the number of requests. *)
Theorem leaveStats_total (leaveRequests : list Leave.LeaveRequest) :
  let s := LeaveScreen.leaveStats leaveRequests in
  (LeaveScreen.pending s + LeaveScreen.approved s + LeaveScreen.rejected s)%nat =
    length (List.filter
              (fun r => bool_decide (Leave.status r ∈ LeaveScreen.status_union))
              leaveRequests)
  /\ (Forall (fun r => Leave.status r ∈ LeaveScreen.status_union) leaveRequests ->
      (LeaveScreen.pending s + LeaveScreen.approved s + LeaveScreen.rejected s)%nat
      = length leaveRequests).
Proof.
  intros s.
  assert (Hnd : NoDup LeaveScreen.status_union).
  { apply (bool_decide_unpack _). vm_compute. exact I. }
  pose proof (tally Leave.status LeaveScreen.status_union leaveRequests Hnd) as H.
  assert (Hsum :
    (LeaveScreen.pending s + LeaveScreen.approved s + LeaveScreen.rejected s)%nat =
    length (List.filter
              (fun r => bool_decide (Leave.status r ∈ LeaveScreen.status_union))
              leaveRequests)).
  { rewrite <- H. unfold s, LeaveScreen.leaveStats, LeaveScreen.status_union.
    simpl. lia. }
  split; [exact Hsum |].
  intros Hall. rewrite Hsum. f_equal. apply filter_all.
  eapply Forall_impl; [exact Hall |]. intros r Hr. simpl.
  now apply bool_decide_eq_true_2.
Qed.

(** X23: the six counters of the admin task screen count every task whose
    status is one of the six values of its union exactly once; a task with
    another status, such as 'pending' or 'overdue' of the table type, is
    counted nowhere. *)
Theorem taskStats_total (tasks : list AdminTasks.Task) :
  let s := AdminTasks.taskStats tasks in
  (AdminTasks.not_started s + AdminTasks.in_progress s + AdminTasks.completed s
   + AdminTasks.shelved s + AdminTasks.accepted s + AdminTasks.rejected s)%nat =
    length (List.filter
              (fun t => bool_decide (AdminTasks.status t ∈ AdminTasks.status_union))
              tasks)
  /\ (forall t, In t tasks ->
        AdminTasks.status t ∉ AdminTasks.status_union ->
        (AdminTasks.not_started s + AdminTasks.in_progress s
         + AdminTasks.completed s + AdminTasks.shelved s
         + AdminTasks.accepted s + AdminTasks.rejected s < length tasks)%nat).
Proof.
  intros s.
  assert (Hnd : NoDup AdminTasks.status_union).
  { apply (bool_decide_unpack _). vm_compute. exact I. }
  pose proof (tally AdminTasks.status AdminTasks.status_union tasks Hnd) as H.
  assert (Hsum :
    (AdminTasks.not_started s + AdminTasks.in_progress s + AdminTasks.completed s
     + AdminTasks.shelved s + AdminTasks.accepted s + AdminTasks.rejected s)%nat =
    length (List.filter
              (fun t => bool_decide (AdminTasks.status t ∈ AdminTasks.status_union))
              tasks)).
  { rewrite <- H.
    unfold s, AdminTasks.taskStats, AdminTasks.count, AdminTasks.status_union,
      TaskStatus.AdminTasks_Task_status.
    simpl. lia. }
  split; [exact Hsum |].
  intros t Hin Hout. rewrite Hsum. clear Hsum H s.
  induction tasks as [| u tasks IH]; [contradiction |]. simpl.
  destruct Hin as [-> | Hin].
  - rewrite bool_decide_eq_false_2 by exact Hout.
    pose proof (List.filter_length_le
                  (fun t0 => bool_decide (AdminTasks.status t0 ∈ AdminTasks.status_union))
                  tasks). lia.
  - specialize (IH Hin).
    destruct (bool_decide _); simpl; lia.
Qed.

Lemma leaveStats_total_witness :
  let r := {| Leave.id := lit "7"; Leave.employee_id := lit "E1";
              Leave.leave_type := lit "sick"; Leave.subject := lit "Flu";
              Leave.description := lit "Flu"; Leave.from_date := lit "2025-01-02";
              Leave.to_date := lit "2025-01-03"; Leave.status := lit "approved";
              Leave.has_document := false; Leave.approved_by := None;
              Leave.approved_at := None; Leave.rejection_reason := None;
              Leave.created_at := lit "2025-01-01T08:00:00.000Z" |} in
  let s := LeaveScreen.leaveStats [r; r; r] in
  (LeaveScreen.pending s + LeaveScreen.approved s + LeaveScreen.rejected s)%nat
  = 3%nat.
Proof.
  intros r s. apply (leaveStats_total [r; r; r]).
  unfold LeaveScreen.status_union. repeat constructor.
Defined.

Lemma taskStats_total_witness :
  let t := {| AdminTasks.id := lit "1"; AdminTasks.title := lit "Audit";
              AdminTasks.description := []; AdminTasks.assigned_to := lit "E1";
              AdminTasks.assigned_employee_name := None;
              AdminTasks.created_by := lit "A1"; AdminTasks.creator_name := None;
              AdminTasks.priority := lit "medium";
              AdminTasks.status := lit "overdue";
              AdminTasks.due_date := lit "2025-01-02";
              AdminTasks.completed_at := None;
              AdminTasks.created_at := lit "2025-01-01T08:00:00.000Z";
              AdminTasks.rejection_note := None |} in
  let s := AdminTasks.taskStats [t] in
  (AdminTasks.not_started s + AdminTasks.in_progress s + AdminTasks.completed s
   + AdminTasks.shelved s + AdminTasks.accepted s + AdminTasks.rejected s
   < 1)%nat.
Proof.
  intros t s. apply (proj2 (taskStats_total [t]) t); [now left |].
  intros H. apply list_elem_of_In in H. simpl in H.
  repeat (destruct H as [H | H]; [discriminate H |]). exact H.
Defined.

(** X22: the create-task handler sends the insert only for a task with a
    title that is not blank, an assignee and a due date, and only when an
    employee with a non-empty identifier is signed in; the row it inserts
    has status 'not_started' and the signed-in employee as creator. On
    every other path it sends nothing and leaves the form as it is; when
    the backend accepts, the dialog is closed and the form reset. *)
Theorem create_task_only_when_valid (Date : Type) (format : Date -> JSString)
    (employee : option AuthContext.Employee)
    (error : option AdminTasks.ResponseError) (st : AdminTasks.State Date) :
  let r := AdminTasks.handleCreateTask Date format employee error st in
  let task := AdminTasks.newTask Date st in
  (Screen.requests (snd r) = [] /\ fst r = st)
  \/ (exists e d,
        employee = Some e /\ AuthContext.employee_id e <> [] /\
        trim (AdminTasks.new_title Date task) <> [] /\
        AdminTasks.new_assigned_to Date task <> [] /\
        AdminTasks.new_due_date Date task = Some d /\
        Screen.requests (snd r) =
          [Supabase.Insert (lit "tasks")
             [(lit "title", Supabase.VString (AdminTasks.new_title Date task));
              (lit "description",
               Supabase.VString (AdminTasks.new_description Date task));
              (lit "assigned_to",
               Supabase.VString (AdminTasks.new_assigned_to Date task));
              (lit "created_by", Supabase.VString (AuthContext.employee_id e));
              (lit "due_date", Supabase.VString (format d));
              (lit "priority", Supabase.VString (AdminTasks.new_priority Date task));
              (lit "status", Supabase.VString (lit "not_started"))]] /\
        (error = None ->
         AdminTasks.showCreateDialog Date (fst r) = false /\
         AdminTasks.newTask Date (fst r) = AdminTasks.emptyTask Date) /\
        (error <> None -> fst r = st)).
Proof.
  intros r task. unfold r, task, AdminTasks.handleCreateTask.
  destruct (not_str (trim _)) eqn:Ht; [left; split; reflexivity |].
  destruct (not_str (AdminTasks.new_assigned_to _ _)) eqn:Ha;
    [left; split; reflexivity |].
  destruct (AdminTasks.new_due_date _ _) as [d |] eqn:Hd;
    [| left; split; reflexivity].
  unfold AdminTasks.create_mutate, AdminTasks.createTaskMutation.
  destruct employee as [e |]; [| left; split; reflexivity].
  destruct (not_str (AuthContext.employee_id e)) eqn:He;
    [left; split; reflexivity |].
  right. exists e, d.
  apply not_str_false_iff in Ht, Ha, He. rewrite Hd.
  destruct error as [err |]; simpl; repeat split; auto; congruence.
Qed.

(** X24: the sections of the employee task screen show exactly the tasks
    whose status is pending, completed, accepted or rejected, each once; a
    task with the status that the admin screen's create mutation inserts
    ('not_started') is shown in none of them. *)
Theorem employee_sections_cover (tasks : list EmployeeTasks.Task) :
  (forall t, In t (EmployeeTasks.rendered tasks) <->
             In t tasks /\ EmployeeTasks.status t ∈ EmployeeTasks.status_union)
  /\ length (EmployeeTasks.rendered tasks) =
     length (List.filter
               (fun t => bool_decide
                           (EmployeeTasks.status t ∈ EmployeeTasks.status_union))
               tasks)
  /\ (forall (Date : Type) (format : Date -> JSString) employee error task
             table values s,
        In (supabase (Supabase.Insert table values))
           (fst (AdminTasks.createTaskMutation Date format employee error task)) ->
        In (lit "status", Supabase.VString s) values ->
        forall t, EmployeeTasks.status t = s ->
                  ~ In t (EmployeeTasks.rendered tasks)).
Proof.
  assert (Hmem : forall t, In t (EmployeeTasks.rendered tasks) <->
             In t tasks /\ EmployeeTasks.status t ∈ EmployeeTasks.status_union).
  { intros t. unfold EmployeeTasks.rendered, EmployeeTasks.pendingTasks,
      EmployeeTasks.rejectedTasks, EmployeeTasks.completedTasks,
      EmployeeTasks.acceptedTasks, EmployeeTasks.status_union.
    rewrite !in_app_iff, !List.filter_In, !strict_eq_true_iff.
    rewrite !elem_of_cons, elem_of_nil. tauto. }
  split; [exact Hmem | split].
  - assert (Hnd : NoDup EmployeeTasks.status_union).
    { apply (bool_decide_unpack _). vm_compute. exact I. }
    rewrite <- (tally EmployeeTasks.status EmployeeTasks.status_union tasks Hnd).
    unfold EmployeeTasks.rendered, EmployeeTasks.pendingTasks,
      EmployeeTasks.rejectedTasks, EmployeeTasks.completedTasks,
      EmployeeTasks.acceptedTasks, EmployeeTasks.status_union.
    rewrite !length_app. simpl. lia.
  - intros Date format employee error task table values s Hsent Hval t Hs Hin.
    apply Hmem in Hin as [_ Hin].
    unfold AdminTasks.createTaskMutation in Hsent.
    destruct employee as [e |]; [| destruct Hsent].
    destruct (not_str (AuthContext.employee_id e)); [destruct Hsent |].
    assert (Hvalues : In (supabase (Supabase.Insert table values))
              [supabase
                 (Supabase.Insert (lit "tasks")
                    [(lit "title", Supabase.VString (AdminTasks.new_title Date task));
                     (lit "description",
                      Supabase.VString (AdminTasks.new_description Date task));
                     (lit "assigned_to",
                      Supabase.VString (AdminTasks.new_assigned_to Date task));
                     (lit "created_by",
                      Supabase.VString (AuthContext.employee_id e));
                     (lit "due_date",
                      match AdminTasks.new_due_date Date task with
                      | Some d => Supabase.VString (format d)
                      | None => Supabase.VNull
                      end);
                     (lit "priority",
                      Supabase.VString (AdminTasks.new_priority Date task));
                     (lit "status", Supabase.VString (lit "not_started"))])]).
    { destruct error; simpl in Hsent.
      - destruct Hsent as [H | [H | []]]; [left; exact H | discriminate H].
      - exact Hsent. }
    destruct Hvalues as [Hv | []]. injection Hv as <- <-.
    assert (Hstat : s = lit "not_started").
    { simpl in Hval.
      repeat (destruct Hval as [Hval | Hval];
              [try discriminate Hval; try (injection Hval as <-; reflexivity) |]).
      contradiction. }
    rewrite Hstat in Hs. rewrite Hs in Hin.
    apply list_elem_of_In in Hin. simpl in Hin.
    repeat (destruct Hin as [Hin | Hin]; [discriminate Hin |]). exact Hin.
Qed.

End StatsFacts.

Section LeaveScreenFacts.
Import JS UI Leave LeaveScreen.
Local Open Scope string_scope.
Local Open Scope list_scope.

(** X17: the reject handler and the mutation behind it. With a blank review
    comment the handler shows "Comment Required", sends nothing and leaves
    the state as it is; otherwise it sends exactly the reject update with
    the comment as typed, and the mutation never throws an error of its own
    ("Rejection reason is required"); the comment and the selection are cleared
    when the backend accepts and kept when it refuses. *)
Theorem handleRejectRequest_guard (employee : option AuthContext.Employee)
    (now : JSString) (error : option Supabase.PostgrestError)
    (response_message requestId : JSString) (st : State) :
  let r := handleRejectRequest employee now error response_message requestId st in
  (blank (reviewComment st) ->
     fst r = st /\ Screen.requests (snd r) = [] /\
     exists t, snd r = [Screen.toast t] /\ Screen.title t = "Comment Required")
  /\ (~ blank (reviewComment st) ->
      Screen.requests (snd r) =
        [Supabase.Update (lit "leave_requests")
           ([(lit "status", Supabase.VString (lit "rejected"))]
            ++ approved_by_of employee
            ++ [(lit "approved_at", Supabase.VString now);
                (lit "rejection_reason", Supabase.VString (reviewComment st))])
           (lit "id") requestId]
      /\ (forall message,
            snd (rejectMutation employee now error requestId (reviewComment st))
            <> thrown (Error message))
      /\ (error = None ->
          fst r = setSelectedRequest None (setReviewComment [] st))
      /\ (error <> None -> fst r = st)).
Proof.
  intros r. unfold r, handleRejectRequest. split.
  - intros Hblank. apply not_str_trim_iff in Hblank. rewrite Hblank. simpl.
    repeat split. eexists. split; reflexivity.
  - intros Hblank.
    assert (Hnb : not_str (trim (reviewComment st)) = false).
    { destruct (not_str _) eqn:E; [| reflexivity].
      apply not_str_trim_iff in E. contradiction. }
    rewrite Hnb. unfold reject_mutate, rejectMutation. rewrite Hnb.
    destruct error as [err |]; simpl.
    + repeat split; try congruence; try (rewrite Hnb; discriminate).
    + repeat split; try congruence; try (rewrite Hnb; discriminate).
Qed.

Lemma handleRejectRequest_guard_witness :
  let st := {| searchTerm := []; statusFilter := lit "all";
               selectedRequest := None; reviewComment := lit "  " |} in
  blank (reviewComment st)
  /\ fst (handleRejectRequest None (lit "2025-01-01T09:00:00.000Z") None []
            (lit "7") st) = st.
Proof.
  intros st.
  assert (Hblank : blank (reviewComment st)) by (repeat constructor).
  split; [exact Hblank |].
  apply (proj1 (handleRejectRequest_guard None (lit "2025-01-01T09:00:00.000Z")
                  None [] (lit "7") st)).
  exact Hblank.
Defined.

(** X18: the approve button of a pending row sends the review comment of the
    render the click belongs to, not the text "Leave request approved." it
    sets just before: with an empty comment the reason column is written as
    null. The text stays in the comment cell, with the row selected, when
    the backend refuses; both are cleared when it accepts. *)
Theorem approveRow_sends_previous_comment
    (employee : option AuthContext.Employee) (now : JSString)
    (error : option Supabase.PostgrestError)
    (request : LeaveRequest) (st : State) :
  let r := approveRow employee now error request st in
  Screen.requests (snd r) =
    [Supabase.Update (lit "leave_requests")
       ([(lit "status", Supabase.VString (lit "approved"))]
        ++ approved_by_of employee
        ++ [(lit "approved_at", Supabase.VString now);
            (lit "rejection_reason", or_null (reviewComment st))])
       (lit "id") (id request)]
  /\ (reviewComment st = [] -> or_null (reviewComment st) = Supabase.VNull)
  /\ (error = None ->
      reviewComment (fst r) = [] /\ selectedRequest (fst r) = None)
  /\ (error <> None ->
      reviewComment (fst r) = lit "Leave request approved." /\
      selectedRequest (fst r) = Some request).
Proof.
  intros r. unfold r, approveRow, approve_mutate, approveMutation.
  destruct error as [err |]; simpl.
  - repeat split; try congruence. now intros ->.
  - repeat split; try congruence. now intros ->.
Qed.

Lemma approveRow_sends_previous_comment_witness :
  let request := {| id := lit "7"; employee_id := lit "E1";
                    leave_type := lit "sick"; subject := lit "Flu";
                    description := lit "Flu"; from_date := lit "2025-01-02";
                    to_date := lit "2025-01-03"; status := lit "pending";
                    has_document := false; approved_by := None;
                    approved_at := None; rejection_reason := None;
                    created_at := lit "2025-01-01T08:00:00.000Z" |} in
  let st := {| searchTerm := []; statusFilter := lit "all";
               selectedRequest := None; reviewComment := [] |} in
  Screen.requests
    (snd (approveRow None (lit "2025-01-01T09:00:00.000Z") None request st)) =
  [Supabase.Update (lit "leave_requests")
     [(lit "status", Supabase.VString (lit "approved"));
      (lit "approved_at", Supabase.VString (lit "2025-01-01T09:00:00.000Z"));
      (lit "rejection_reason", Supabase.VNull)]
     (lit "id") (lit "7")].
Proof.
  intros request st.
  apply (approveRow_sends_previous_comment None (lit "2025-01-01T09:00:00.000Z")
           None request st).
Defined.

Lemma nullable_comment_or (comment : JSString) (fallback : string) :
  lit fallback <> [] ->
  nullable (or_null (comment_or comment fallback)) =
  Some (comment_or comment fallback).
Proof.
  intros Hfb. unfold comment_or, or_null.
  destruct comment as [| c comment]; simpl.
  - destruct (lit fallback) eqn:E; [contradiction | reflexivity].
  - reflexivity.
Qed.

(** X19: "Reset to Pending" writes the administrator and the time of the
    reset into the approver columns: the row ends up pending, with
    [approved_by] and [approved_at] set and the review comment (or "Status
    reset to pending") as its reason. *)
Theorem reset_to_pending_keeps_approver (admin : AuthContext.Employee)
    (now : JSString) (request r : LeaveRequest) (st : State)
    (table : gmap JSString LeaveRequest) :
  table !! id request = Some r ->
  let after :=
    execute_all
      (Screen.events (snd (editReset (Some admin) now None request st))) table in
  after =
    <[id request :=
        decided (lit "pending") (AuthContext.employee_id admin) now
          (Some (comment_or (reviewComment st) "Status reset to pending")) r]>
      table
  /\ exists r', after !! id request = Some r' /\
       status r' = lit "pending" /\
       approved_by r' = Some (AuthContext.employee_id admin) /\
       approved_at r' = Some now.
Proof.
  intros Hrow after.
  assert (Hafter : after =
    <[id request :=
        decided (lit "pending") (AuthContext.employee_id admin) now
          (Some (comment_or (reviewComment st) "Status reset to pending")) r]>
      table).
  { assert (Hev : Screen.events (snd (editReset (Some admin) now None request st))
                  = [supabase
                       (Supabase.Update (lit "leave_requests")
                          [(lit "status", Supabase.VString (lit "pending"));
                           (lit "approved_by",
                            Supabase.VString (AuthContext.employee_id admin));
                           (lit "approved_at", Supabase.VString now);
                           (lit "rejection_reason",
                            or_null (comment_or (reviewComment st)
                                       "Status reset to pending"))]
                          (lit "id") (id request))]) by reflexivity.
    unfold after. rewrite Hev.
    rewrite (execute_update_one _ _ _ r Hrow), set_columns_decided.
    now rewrite nullable_comment_or by discriminate. }
  split; [exact Hafter |]. rewrite Hafter, lookup_insert_eq.
  eexists. split; [reflexivity |]. repeat split.
Qed.

Lemma reset_to_pending_keeps_approver_witness :
  let admin := {| AuthContext.employee_id := lit "A1";
                  AuthContext.location := None |} in
  let request := {| id := lit "7"; employee_id := lit "E1";
                    leave_type := lit "sick"; subject := lit "Flu";
                    description := lit "Flu"; from_date := lit "2025-01-02";
                    to_date := lit "2025-01-03"; status := lit "approved";
                    has_document := false; approved_by := Some (lit "A2");
                    approved_at := Some (lit "2025-01-01T09:00:00.000Z");
                    rejection_reason := None;
                    created_at := lit "2025-01-01T08:00:00.000Z" |} in
  let st := {| searchTerm := []; statusFilter := lit "all";
               selectedRequest := Some request; reviewComment := [] |} in
  exists r',
    execute_all
      (Screen.events
         (snd (editReset (Some admin) (lit "2025-01-05T09:00:00.000Z") None
                 request st)))
      {[ lit "7" := request ]} !! lit "7" = Some r' /\
    status r' = lit "pending" /\
    approved_by r' = Some (lit "A1") /\
    approved_at r' = Some (lit "2025-01-05T09:00:00.000Z").
Proof.
  intros admin request st.
  apply (reset_to_pending_keeps_approver admin (lit "2025-01-05T09:00:00.000Z")
           request request st {[ lit "7" := request ]}).
  apply lookup_singleton_eq.
Defined.

Lemma execute_all_app (e1 e2 : list Event) (table : gmap JSString LeaveRequest) :
  execute_all (e1 ++ e2) table = execute_all e2 (execute_all e1 table).
Proof. unfold execute_all. apply fold_left_app. Qed.

(** X20: the decisions do not look at the status they find, and a later one
    replaces an earlier one: approving a request and then rejecting it
    leaves the row exactly as rejecting alone would, and the other way
    round. *)
Theorem later_decision_replaces_earlier (admin1 admin2 : AuthContext.Employee)
    (now1 now2 requestId comment reason : JSString) (r : LeaveRequest)
    (table : gmap JSString LeaveRequest) :
  trim reason <> [] ->
  table !! requestId = Some r ->
  let approve := fst (approveMutation (Some admin1) now1 None requestId comment) in
  let reject := fst (rejectMutation (Some admin2) now2 None requestId reason) in
  execute_all (approve ++ reject) table = execute_all reject table
  /\ execute_all (reject ++ approve) table = execute_all approve table.
Proof.
  intros Hreason Hrow approve reject.
  apply not_str_false_iff in Hreason.
  assert (Ha : approve =
    [supabase
       (Supabase.Update (lit "leave_requests")
          [(lit "status", Supabase.VString (lit "approved"));
           (lit "approved_by", Supabase.VString (AuthContext.employee_id admin1));
           (lit "approved_at", Supabase.VString now1);
           (lit "rejection_reason", or_null comment)]
          (lit "id") requestId)]) by reflexivity.
  assert (Hr : reject =
    [supabase
       (Supabase.Update (lit "leave_requests")
          [(lit "status", Supabase.VString (lit "rejected"));
           (lit "approved_by", Supabase.VString (AuthContext.employee_id admin2));
           (lit "approved_at", Supabase.VString now2);
           (lit "rejection_reason", Supabase.VString reason)]
          (lit "id") requestId)])
    by (unfold reject, rejectMutation; now rewrite Hreason).
  rewrite Ha, Hr, !execute_all_app.
  rewrite !(execute_update_one table _ _ r Hrow), !set_columns_decided.
  split.
  - rewrite (execute_update_one _ _ _ _ (lookup_insert_eq _ _ _)).
    rewrite set_columns_decided, insert_insert_eq. reflexivity.
  - rewrite (execute_update_one _ _ _ _ (lookup_insert_eq _ _ _)).
    rewrite set_columns_decided, insert_insert_eq. reflexivity.
Qed.

Lemma later_decision_replaces_earlier_witness :
  let admin := {| AuthContext.employee_id := lit "A1";
                  AuthContext.location := None |} in
  let request := {| id := lit "7"; employee_id := lit "E1";
                    leave_type := lit "sick"; subject := lit "Flu";
                    description := lit "Flu"; from_date := lit "2025-01-02";
                    to_date := lit "2025-01-03"; status := lit "pending";
                    has_document := false; approved_by := None;
                    approved_at := None; rejection_reason := None;
                    created_at := lit "2025-01-01T08:00:00.000Z" |} in
  let approve := fst (approveMutation (Some admin) (lit "T1") None (lit "7") []) in
  let reject :=
    fst (rejectMutation (Some admin) (lit "T2") None (lit "7") (lit "No cover")) in
  execute_all (approve ++ reject) {[ lit "7" := request ]} =
  execute_all reject {[ lit "7" := request ]}.
Proof.
  intros admin request.
  apply (later_decision_replaces_earlier admin admin (lit "T1") (lit "T2")
           (lit "7") [] (lit "No cover") request {[ lit "7" := request ]}).
  - discriminate.
  - apply lookup_singleton_eq.
Defined.

End LeaveScreenFacts.
